(** * CFDppParser: a shallow embedding of [cfdppparser.py]

    The parser class reads four text files of a CFD++ case directory
    ([<case>/<case>.log], [<case>/mcfd.info1], [<case>/infout1f.inp],
    [<case>/infout1f.out]) and derives aerodynamic coefficients.

    The embedding follows the Python text statement by statement:
    - the file system is a finite table from paths to nodes; [open] and
      [os.path.exists] are lookups in it, and nothing in the class writes;
    - an exception is a value of [PyExc]; a computation is a value of
      [res]: it returns ([Ok]), raises ([Raise]) or, inside one of the
      class's [try ... except Exception as e: print(e); exit(1)] blocks,
      terminates the interpreter with status 1 after printing ([Exit1]);
    - the object's attributes are the fields of the record [State], and a
      method is a function from the state before to the state after;
    - Python's [float] values are kept behind the interface [PyFloat]; its
      instance is IEEE binary64 on the kernel's primitive floats, which is
      what CPython executes. The C library's [cos] and [sin] are kept behind
      the interface [PyMath]: the results hold for every such library. *)

From Stdlib Require Import Floats.
From Stdlib Require Import ZArith NArith String Ascii DecimalString List Bool Lia.
From stdpp Require Import base option list.
Import ListNotations.

Local Open Scope string_scope.
Local Open Scope Z_scope.

(** ** Exceptions and results *)

Inductive PyExc : Type :=
| FileNotFoundError (path : string)
| IsADirectoryError (path : string)
| ValueError
| IndexError
| ZeroDivisionError
| UnboundLocalError.

Inductive res (A : Type) : Type :=
| Ok (a : A)
| Raise (e : PyExc)
| Exit1 (e : PyExc).

Arguments Ok {A} a.
Arguments Raise {A} e.
Arguments Exit1 {A} e.

#[global] Instance res_ret : MRet res := fun A a => Ok a.
#[global] Instance res_bind : MBind res := fun A B f m =>
  match m with
  | Ok a => f a
  | Raise e => Raise e
  | Exit1 e => Exit1 e
  end.

#[global] Instance res_fmap : FMap res := fun A B f m =>
  match m with
  | Ok a => Ok (f a)
  | Raise e => Raise e
  | Exit1 e => Exit1 e
  end.

(** [try: body except Exception as e: print(e); exit(1)]. [exit] raises
    [SystemExit], which is not an [Exception]: an enclosing handler of the
    same shape lets it through. *)
Definition try_exit {A} (body : res A) : res A :=
  match body with
  | Raise e => Exit1 e
  | r => r
  end.

(** [for x in l: st = body st x], stopping at the first exception. *)
Fixpoint forM {S A : Type} (body : S -> A -> res S) (l : list A) (st : S) : res S :=
  match l with
  | [] => Ok st
  | x :: l' => st' ← body st x; forM body l' st'
  end.

Definition is_Ok {A} (r : res A) : bool :=
  match r with Ok _ => true | _ => false end.

(** The value a computation returned, [d] when it returned none. *)
Definition returned {A} (d : A) (r : res A) : A :=
  match r with Ok a => a | _ => d end.

(** ** Python sequences *)

Definition len {A} (l : list A) : Z := Z.of_nat (length l).

(** [l[i]]: a negative index counts from the end; outside
    [-len(l) .. len(l)-1] it raises [IndexError]. *)
Definition py_index {A} (l : list A) (i : Z) : res A :=
  let j := if i <? 0 then i + len l else i in
  if j <? 0 then Raise IndexError
  else match nth_error l (Z.to_nat j) with
       | Some x => Ok x
       | None => Raise IndexError
       end.

(** [range(n)]. *)
Definition range (n : Z) : list Z := map Z.of_nat (seq 0 (Z.to_nat n)).

(** [x in l] on a list of integers. *)
Definition py_mem (x : Z) (l : list Z) : bool := existsb (Z.eqb x) l.

(** [l.index(x, start, len(l))]: the first position at or after [start]
    holding [x]; [ValueError] when there is none. A negative [start] is taken
    from the end and clamped at 0, as for slices. *)
Fixpoint index_from (x : string) (l : list string) (pos : Z) : res Z :=
  match l with
  | [] => Raise ValueError
  | y :: l' => if String.eqb y x then Ok pos else index_from x l' (pos + 1)
  end.

Definition py_list_index (x : string) (start : Z) (l : list string) : res Z :=
  let s := if start <? 0 then Z.max (start + len l) 0 else start in
  index_from x (drop (Z.to_nat s) l) s.

(** ** Python strings *)

(** [sub in s]. *)
Fixpoint py_in (sub s : string) : bool :=
  String.prefix sub s ||
  match s with
  | EmptyString => false
  | String _ s' => py_in sub s'
  end.

(** The characters [str.isspace] accepts below code point 256. *)
Definition is_space (c : ascii) : bool :=
  let n := N_of_ascii c in
  (((9 <=? n) && (n <=? 13)) || ((28 <=? n) && (n <=? 32)) || (n =? 133) || (n =? 160))%N.

(** [s.split()]: the maximal runs of characters that are not whitespace.
    The first component tells whether [s] starts inside a field. *)
Fixpoint split_acc (s : string) : bool * list string :=
  match s with
  | EmptyString => (false, [])
  | String c s' =>
    let '(inword, fields) := split_acc s' in
    if is_space c then (false, fields)
    else (true,
          match inword, fields with
          | true, w :: ws => String c w :: ws
          | _, _ => String c EmptyString :: fields
          end)
  end.

Definition py_split (s : string) : list string := snd (split_acc s).

(** ** Numeric literals: [int(s)] and the decimal grammar of [float(s)] *)

Definition is_digit (c : ascii) : bool :=
  let n := N_of_ascii c in ((48 <=? n) && (n <=? 57))%N.

Definition digit_val (c : ascii) : N := (N_of_ascii c - 48)%N.

(** Underscores are accepted between two digits only (PEP 515) and dropped. *)
Fixpoint strip_underscores (prev_digit : bool) (s : string) : option string :=
  match s with
  | EmptyString => Some EmptyString
  | String c s' =>
    if Ascii.eqb c "_" then
      match s' with
      | String d _ => if prev_digit && is_digit d then strip_underscores false s' else None
      | EmptyString => None
      end
    else String c <$> strip_underscores (is_digit c) s'
  end.

(** The longest prefix of digits: its value after [acc], how many digits it
    has, and what follows. *)
Fixpoint take_digits (s : string) (acc : N) (cnt : nat) : N * nat * string :=
  match s with
  | String c s' =>
    if is_digit c then take_digits s' (10 * acc + digit_val c)%N (S cnt)
    else (acc, cnt, s)
  | EmptyString => (acc, cnt, s)
  end.

(** An optional sign: [true] for [-]. *)
Definition take_sign (s : string) : bool * string :=
  match s with
  | String "-" s' => (true, s')
  | String "+" s' => (false, s')
  | _ => (false, s)
  end.

(** [int(s)] in base 10, for a string without surrounding whitespace. *)
Definition int_of_string (s : string) : res Z :=
  let '(neg, body) := take_sign s in
  match strip_underscores false body with
  | None => Raise ValueError
  | Some body =>
    match take_digits body 0%N 0%nat with
    | (n, S _, EmptyString) => Ok (if neg then - Z.of_N n else Z.of_N n)
    | _ => Raise ValueError
    end
  end.

Definition lower (c : ascii) : ascii :=
  let n := N_of_ascii c in
  if ((65 <=? n) && (n <=? 90))%N then ascii_of_N (n + 32) else c.

Fixpoint lowercase (s : string) : string :=
  match s with
  | EmptyString => EmptyString
  | String c s' => String (lower c) (lowercase s')
  end.

(** What a float literal denotes before rounding: [(-1)^neg * m * 10^e]. *)
Inductive literal : Type :=
| LitDec (neg : bool) (m : N) (e : Z)
| LitInf (neg : bool)
| LitNan.

Definition take_exponent (s : string) : option Z :=
  match s with
  | EmptyString => Some 0
  | String c s' =>
    if Ascii.eqb (lower c) "e" then
      let '(eneg, s'') := take_sign s' in
      match take_digits s'' 0%N 0%nat with
      | (n, S _, EmptyString) => Some (if eneg then - Z.of_N n else Z.of_N n)
      | _ => None
      end
    else None
  end.

(** [digits [. digits] [e [sign] digits]] with a digit before or after the
    point, or [inf], [infinity], [nan] in any letter case. *)
Definition parse_literal (s : string) : option literal :=
  body ← strip_underscores false s;
  let '(neg, body) := take_sign body in
  let low := lowercase body in
  if String.eqb low "inf" || String.eqb low "infinity" then Some (LitInf neg)
  else if String.eqb low "nan" then Some LitNan
  else
    let '(ip, icnt, rest) := take_digits body 0%N 0%nat in
    let '(m, fcnt, rest) :=
      match rest with
      | String "." rest' => take_digits rest' ip 0%nat
      | _ => (ip, 0%nat, rest)
      end in
    match (icnt + fcnt)%nat with
    | O => None
    | S _ => ex ← take_exponent rest; Some (LitDec neg m (ex - Z.of_nat fcnt))
    end.

(** ** The [float] interface *)

(** The operations of Python's [float] the class uses. [+], [-] and [*] never
    raise; [/] raises [ZeroDivisionError] on a zero divisor; [math.sqrt]
    raises [ValueError] outside its domain. [f_of_dec neg m e] is the value
    of the literal [(-1)^neg * m * 10^e]. *)
Class PyFloat : Type := {
  F : Type;
  f_of_dec : bool -> N -> Z -> F;
  f_inf : bool -> option F;
  f_nan : option F;
  fadd : F -> F -> F;
  fsub : F -> F -> F;
  fmul : F -> F -> F;
  fdiv : F -> F -> res F;
  fsqrt : F -> res F;
}.

(** [math.cos], [math.sin] and the factor [math.radians] multiplies by. *)
Class PyMath (PF : PyFloat) : Type := {
  f_cos : F -> res F;
  f_sin : F -> res F;
  degToRad : F;
}.

Section Literals.
Context {PF : PyFloat}.

(** [float(s)], for a string without surrounding whitespace. *)
Definition float_of_string (s : string) : res F :=
  match parse_literal s with
  | Some (LitDec neg m e) => Ok (f_of_dec neg m e)
  | Some (LitInf neg) => from_option Ok (Raise ValueError) (f_inf neg)
  | Some LitNan => from_option Ok (Raise ValueError) f_nan
  | None => Raise ValueError
  end.

(** The literals of the source text. *)
Definition f0_0 : F := f_of_dec false 0 0.
Definition f0_5 : F := f_of_dec false 5 (-1).
Definition const_R : F := f_of_dec false 287 0.
Definition const_gamma : F := f_of_dec false 14 (-1).
End Literals.

(** *** IEEE binary64 *)

(** The binary64 number nearest to [(-1)^neg * m * 10^e], ties to even: an
    integer is rounded as it is; a quotient [m / 10^k] is computed to at
    least 57 binary digits, three more than the format keeps, and rounded
    from there with the position of the remainder. *)
Definition SF_of_dec (neg : bool) (m : N) (e : Z) : spec_float :=
  match m with
  | N0 => S754_zero neg
  | Npos p =>
    if 0 <=? e then binary_round prec emax neg (p * Z.to_pos (10 ^ e))%positive 0
    else
      let d := 10 ^ (- e) in
      let s := Z.max 0 (56 + Z.log2_up d - Z.log2 (Z.pos p)) in
      let num := Z.pos p * 2 ^ s in
      let q := num / d in
      let r := num mod d in
      let loc := if r =? 0 then loc_Exact else loc_Inexact (2 * r ?= d) in
      binary_round_aux prec emax neg q (- s) loc
  end.

#[global] Instance binary64 : PyFloat := {|
  F := float;
  f_of_dec neg m e := SF2Prim (SF_of_dec neg m e);
  f_inf neg := Some (if neg then neg_infinity else infinity);
  f_nan := Some nan;
  fadd := PrimFloat.add;
  fsub := PrimFloat.sub;
  fmul := PrimFloat.mul;
  fdiv x y := if PrimFloat.eqb y 0%float then Raise ZeroDivisionError
              else Ok (PrimFloat.div x y);
  fsqrt x := let r := PrimFloat.sqrt x in
             if PrimFloat.is_nan r && negb (PrimFloat.is_nan x) then Raise ValueError
             else Ok r;
|}.

(** ** The file system *)

Inductive node : Type :=
| Dir
| File (lines : list string).

(** The paths that exist, each with what it holds; the first entry of a
    path counts. *)
Definition FS : Type := list (string * node).

Fixpoint lookup_path (fs : FS) (p : string) : option node :=
  match fs with
  | [] => None
  | (q, n) :: fs' => if String.eqb q p then Some n else lookup_path fs' p
  end.

(** [os.path.exists(p)]. *)
Definition path_exists (fs : FS) (p : string) : bool :=
  match lookup_path fs p with Some _ => true | None => false end.

(** [f = open(p); lines = f.readlines()]: the lines of the file, each with
    its line end. *)
Definition readlines (fs : FS) (p : string) : res (list string) :=
  match lookup_path fs p with
  | Some (File lines) => Ok lines
  | Some Dir => Raise (IsADirectoryError p)
  | None => Raise (FileNotFoundError p)
  end.

(** ** The object *)

Inductive SymmetryPlaneType : Type := none | xyPlane | xzPlane.

Section Parser.
Context {PF : PyFloat}.

(** The three-element lists [[0.0, 0.0, 0.0]] of the class: they are only
    ever item-assigned, never resized. Reading one at a computed index is
    Python's list indexing on its three items. *)
Record vec3 : Type := Vec3 { vx : F; vy : F; vz : F }.

Definition items (v : vec3) : list F := [vx v; vy v; vz v].
Definition vget (v : vec3) (i : Z) : res F := py_index (items v) i.
Definition set0 (x : F) (v : vec3) : vec3 := Vec3 x (vy v) (vz v).
Definition set1 (x : F) (v : vec3) : vec3 := Vec3 (vx v) x (vz v).
Definition set2 (x : F) (v : vec3) : vec3 := Vec3 (vx v) (vy v) x.
Definition vzero : vec3 := Vec3 f0_0 f0_0 f0_0.

(** The attributes of a [CFDppParser] object. [SymmPlaneType] is the
    attribute the geometry reader creates; it does not exist before. *)
Record State : Type := mkState {
  caseName : string;
  logFileName : string;
  info1FileName : string;
  infinFileName : string;
  infoutFileName : string;
  symmPlane : SymmetryPlaneType;
  SymmPlaneType : option SymmetryPlaneType;
  indexLift : Z;
  indexDrag : Z;
  indexSide : Z;
  refPres : F;
  refTemp : F;
  refVels : vec3;
  refVmag : F;
  refDens : F;
  refMach : F;
  numBounds : Z;
  noSlipWalls : list Z;
  alpha : F;
  refArea : F;
  refLength : F;
  refOrign : vec3;
  force_tol : vec3;
  force_inv : vec3;
  force_vis : vec3;
  moment : vec3;
  div_moment : F;
  xCenterOfPressure : F;
  idUpper : Z;
  idLower : Z;
}.

(** Attribute assignment, one function per assigned attribute. *)
Definition set_SymmPlaneType (v : option SymmetryPlaneType) (s : State) : State :=
  {| caseName := caseName s; logFileName := logFileName s; info1FileName := info1FileName s;
     infinFileName := infinFileName s; infoutFileName := infoutFileName s;
     symmPlane := symmPlane s; SymmPlaneType := v; indexLift := indexLift s;
     indexDrag := indexDrag s; indexSide := indexSide s; refPres := refPres s;
     refTemp := refTemp s; refVels := refVels s; refVmag := refVmag s; refDens := refDens s;
     refMach := refMach s; numBounds := numBounds s; noSlipWalls := noSlipWalls s;
     alpha := alpha s; refArea := refArea s; refLength := refLength s;
     refOrign := refOrign s; force_tol := force_tol s; force_inv := force_inv s;
     force_vis := force_vis s; moment := moment s; div_moment := div_moment s;
     xCenterOfPressure := xCenterOfPressure s; idUpper := idUpper s; idLower := idLower s |}.
Definition set_indexLift (v : Z) (s : State) : State :=
  {| caseName := caseName s; logFileName := logFileName s; info1FileName := info1FileName s;
     infinFileName := infinFileName s; infoutFileName := infoutFileName s;
     symmPlane := symmPlane s; SymmPlaneType := SymmPlaneType s; indexLift := v;
     indexDrag := indexDrag s; indexSide := indexSide s; refPres := refPres s;
     refTemp := refTemp s; refVels := refVels s; refVmag := refVmag s; refDens := refDens s;
     refMach := refMach s; numBounds := numBounds s; noSlipWalls := noSlipWalls s;
     alpha := alpha s; refArea := refArea s; refLength := refLength s;
     refOrign := refOrign s; force_tol := force_tol s; force_inv := force_inv s;
     force_vis := force_vis s; moment := moment s; div_moment := div_moment s;
     xCenterOfPressure := xCenterOfPressure s; idUpper := idUpper s; idLower := idLower s |}.
Definition set_indexDrag (v : Z) (s : State) : State :=
  {| caseName := caseName s; logFileName := logFileName s; info1FileName := info1FileName s;
     infinFileName := infinFileName s; infoutFileName := infoutFileName s;
     symmPlane := symmPlane s; SymmPlaneType := SymmPlaneType s; indexLift := indexLift s;
     indexDrag := v; indexSide := indexSide s; refPres := refPres s; refTemp := refTemp s;
     refVels := refVels s; refVmag := refVmag s; refDens := refDens s; refMach := refMach s;
     numBounds := numBounds s; noSlipWalls := noSlipWalls s; alpha := alpha s;
     refArea := refArea s; refLength := refLength s; refOrign := refOrign s;
     force_tol := force_tol s; force_inv := force_inv s; force_vis := force_vis s;
     moment := moment s; div_moment := div_moment s;
     xCenterOfPressure := xCenterOfPressure s; idUpper := idUpper s; idLower := idLower s |}.
Definition set_indexSide (v : Z) (s : State) : State :=
  {| caseName := caseName s; logFileName := logFileName s; info1FileName := info1FileName s;
     infinFileName := infinFileName s; infoutFileName := infoutFileName s;
     symmPlane := symmPlane s; SymmPlaneType := SymmPlaneType s; indexLift := indexLift s;
     indexDrag := indexDrag s; indexSide := v; refPres := refPres s; refTemp := refTemp s;
     refVels := refVels s; refVmag := refVmag s; refDens := refDens s; refMach := refMach s;
     numBounds := numBounds s; noSlipWalls := noSlipWalls s; alpha := alpha s;
     refArea := refArea s; refLength := refLength s; refOrign := refOrign s;
     force_tol := force_tol s; force_inv := force_inv s; force_vis := force_vis s;
     moment := moment s; div_moment := div_moment s;
     xCenterOfPressure := xCenterOfPressure s; idUpper := idUpper s; idLower := idLower s |}.
Definition set_refPres (v : F) (s : State) : State :=
  {| caseName := caseName s; logFileName := logFileName s; info1FileName := info1FileName s;
     infinFileName := infinFileName s; infoutFileName := infoutFileName s;
     symmPlane := symmPlane s; SymmPlaneType := SymmPlaneType s; indexLift := indexLift s;
     indexDrag := indexDrag s; indexSide := indexSide s; refPres := v; refTemp := refTemp s;
     refVels := refVels s; refVmag := refVmag s; refDens := refDens s; refMach := refMach s;
     numBounds := numBounds s; noSlipWalls := noSlipWalls s; alpha := alpha s;
     refArea := refArea s; refLength := refLength s; refOrign := refOrign s;
     force_tol := force_tol s; force_inv := force_inv s; force_vis := force_vis s;
     moment := moment s; div_moment := div_moment s;
     xCenterOfPressure := xCenterOfPressure s; idUpper := idUpper s; idLower := idLower s |}.
Definition set_refTemp (v : F) (s : State) : State :=
  {| caseName := caseName s; logFileName := logFileName s; info1FileName := info1FileName s;
     infinFileName := infinFileName s; infoutFileName := infoutFileName s;
     symmPlane := symmPlane s; SymmPlaneType := SymmPlaneType s; indexLift := indexLift s;
     indexDrag := indexDrag s; indexSide := indexSide s; refPres := refPres s; refTemp := v;
     refVels := refVels s; refVmag := refVmag s; refDens := refDens s; refMach := refMach s;
     numBounds := numBounds s; noSlipWalls := noSlipWalls s; alpha := alpha s;
     refArea := refArea s; refLength := refLength s; refOrign := refOrign s;
     force_tol := force_tol s; force_inv := force_inv s; force_vis := force_vis s;
     moment := moment s; div_moment := div_moment s;
     xCenterOfPressure := xCenterOfPressure s; idUpper := idUpper s; idLower := idLower s |}.
Definition set_refVels (v : vec3) (s : State) : State :=
  {| caseName := caseName s; logFileName := logFileName s; info1FileName := info1FileName s;
     infinFileName := infinFileName s; infoutFileName := infoutFileName s;
     symmPlane := symmPlane s; SymmPlaneType := SymmPlaneType s; indexLift := indexLift s;
     indexDrag := indexDrag s; indexSide := indexSide s; refPres := refPres s;
     refTemp := refTemp s; refVels := v; refVmag := refVmag s; refDens := refDens s;
     refMach := refMach s; numBounds := numBounds s; noSlipWalls := noSlipWalls s;
     alpha := alpha s; refArea := refArea s; refLength := refLength s;
     refOrign := refOrign s; force_tol := force_tol s; force_inv := force_inv s;
     force_vis := force_vis s; moment := moment s; div_moment := div_moment s;
     xCenterOfPressure := xCenterOfPressure s; idUpper := idUpper s; idLower := idLower s |}.
Definition set_refVmag (v : F) (s : State) : State :=
  {| caseName := caseName s; logFileName := logFileName s; info1FileName := info1FileName s;
     infinFileName := infinFileName s; infoutFileName := infoutFileName s;
     symmPlane := symmPlane s; SymmPlaneType := SymmPlaneType s; indexLift := indexLift s;
     indexDrag := indexDrag s; indexSide := indexSide s; refPres := refPres s;
     refTemp := refTemp s; refVels := refVels s; refVmag := v; refDens := refDens s;
     refMach := refMach s; numBounds := numBounds s; noSlipWalls := noSlipWalls s;
     alpha := alpha s; refArea := refArea s; refLength := refLength s;
     refOrign := refOrign s; force_tol := force_tol s; force_inv := force_inv s;
     force_vis := force_vis s; moment := moment s; div_moment := div_moment s;
     xCenterOfPressure := xCenterOfPressure s; idUpper := idUpper s; idLower := idLower s |}.
Definition set_refDens (v : F) (s : State) : State :=
  {| caseName := caseName s; logFileName := logFileName s; info1FileName := info1FileName s;
     infinFileName := infinFileName s; infoutFileName := infoutFileName s;
     symmPlane := symmPlane s; SymmPlaneType := SymmPlaneType s; indexLift := indexLift s;
     indexDrag := indexDrag s; indexSide := indexSide s; refPres := refPres s;
     refTemp := refTemp s; refVels := refVels s; refVmag := refVmag s; refDens := v;
     refMach := refMach s; numBounds := numBounds s; noSlipWalls := noSlipWalls s;
     alpha := alpha s; refArea := refArea s; refLength := refLength s;
     refOrign := refOrign s; force_tol := force_tol s; force_inv := force_inv s;
     force_vis := force_vis s; moment := moment s; div_moment := div_moment s;
     xCenterOfPressure := xCenterOfPressure s; idUpper := idUpper s; idLower := idLower s |}.
Definition set_refMach (v : F) (s : State) : State :=
  {| caseName := caseName s; logFileName := logFileName s; info1FileName := info1FileName s;
     infinFileName := infinFileName s; infoutFileName := infoutFileName s;
     symmPlane := symmPlane s; SymmPlaneType := SymmPlaneType s; indexLift := indexLift s;
     indexDrag := indexDrag s; indexSide := indexSide s; refPres := refPres s;
     refTemp := refTemp s; refVels := refVels s; refVmag := refVmag s; refDens := refDens s;
     refMach := v; numBounds := numBounds s; noSlipWalls := noSlipWalls s; alpha := alpha s;
     refArea := refArea s; refLength := refLength s; refOrign := refOrign s;
     force_tol := force_tol s; force_inv := force_inv s; force_vis := force_vis s;
     moment := moment s; div_moment := div_moment s;
     xCenterOfPressure := xCenterOfPressure s; idUpper := idUpper s; idLower := idLower s |}.
Definition set_numBounds (v : Z) (s : State) : State :=
  {| caseName := caseName s; logFileName := logFileName s; info1FileName := info1FileName s;
     infinFileName := infinFileName s; infoutFileName := infoutFileName s;
     symmPlane := symmPlane s; SymmPlaneType := SymmPlaneType s; indexLift := indexLift s;
     indexDrag := indexDrag s; indexSide := indexSide s; refPres := refPres s;
     refTemp := refTemp s; refVels := refVels s; refVmag := refVmag s; refDens := refDens s;
     refMach := refMach s; numBounds := v; noSlipWalls := noSlipWalls s; alpha := alpha s;
     refArea := refArea s; refLength := refLength s; refOrign := refOrign s;
     force_tol := force_tol s; force_inv := force_inv s; force_vis := force_vis s;
     moment := moment s; div_moment := div_moment s;
     xCenterOfPressure := xCenterOfPressure s; idUpper := idUpper s; idLower := idLower s |}.
Definition set_noSlipWalls (v : list Z) (s : State) : State :=
  {| caseName := caseName s; logFileName := logFileName s; info1FileName := info1FileName s;
     infinFileName := infinFileName s; infoutFileName := infoutFileName s;
     symmPlane := symmPlane s; SymmPlaneType := SymmPlaneType s; indexLift := indexLift s;
     indexDrag := indexDrag s; indexSide := indexSide s; refPres := refPres s;
     refTemp := refTemp s; refVels := refVels s; refVmag := refVmag s; refDens := refDens s;
     refMach := refMach s; numBounds := numBounds s; noSlipWalls := v; alpha := alpha s;
     refArea := refArea s; refLength := refLength s; refOrign := refOrign s;
     force_tol := force_tol s; force_inv := force_inv s; force_vis := force_vis s;
     moment := moment s; div_moment := div_moment s;
     xCenterOfPressure := xCenterOfPressure s; idUpper := idUpper s; idLower := idLower s |}.
Definition set_alpha (v : F) (s : State) : State :=
  {| caseName := caseName s; logFileName := logFileName s; info1FileName := info1FileName s;
     infinFileName := infinFileName s; infoutFileName := infoutFileName s;
     symmPlane := symmPlane s; SymmPlaneType := SymmPlaneType s; indexLift := indexLift s;
     indexDrag := indexDrag s; indexSide := indexSide s; refPres := refPres s;
     refTemp := refTemp s; refVels := refVels s; refVmag := refVmag s; refDens := refDens s;
     refMach := refMach s; numBounds := numBounds s; noSlipWalls := noSlipWalls s;
     alpha := v; refArea := refArea s; refLength := refLength s; refOrign := refOrign s;
     force_tol := force_tol s; force_inv := force_inv s; force_vis := force_vis s;
     moment := moment s; div_moment := div_moment s;
     xCenterOfPressure := xCenterOfPressure s; idUpper := idUpper s; idLower := idLower s |}.
Definition set_refArea (v : F) (s : State) : State :=
  {| caseName := caseName s; logFileName := logFileName s; info1FileName := info1FileName s;
     infinFileName := infinFileName s; infoutFileName := infoutFileName s;
     symmPlane := symmPlane s; SymmPlaneType := SymmPlaneType s; indexLift := indexLift s;
     indexDrag := indexDrag s; indexSide := indexSide s; refPres := refPres s;
     refTemp := refTemp s; refVels := refVels s; refVmag := refVmag s; refDens := refDens s;
     refMach := refMach s; numBounds := numBounds s; noSlipWalls := noSlipWalls s;
     alpha := alpha s; refArea := v; refLength := refLength s; refOrign := refOrign s;
     force_tol := force_tol s; force_inv := force_inv s; force_vis := force_vis s;
     moment := moment s; div_moment := div_moment s;
     xCenterOfPressure := xCenterOfPressure s; idUpper := idUpper s; idLower := idLower s |}.
Definition set_refLength (v : F) (s : State) : State :=
  {| caseName := caseName s; logFileName := logFileName s; info1FileName := info1FileName s;
     infinFileName := infinFileName s; infoutFileName := infoutFileName s;
     symmPlane := symmPlane s; SymmPlaneType := SymmPlaneType s; indexLift := indexLift s;
     indexDrag := indexDrag s; indexSide := indexSide s; refPres := refPres s;
     refTemp := refTemp s; refVels := refVels s; refVmag := refVmag s; refDens := refDens s;
     refMach := refMach s; numBounds := numBounds s; noSlipWalls := noSlipWalls s;
     alpha := alpha s; refArea := refArea s; refLength := v; refOrign := refOrign s;
     force_tol := force_tol s; force_inv := force_inv s; force_vis := force_vis s;
     moment := moment s; div_moment := div_moment s;
     xCenterOfPressure := xCenterOfPressure s; idUpper := idUpper s; idLower := idLower s |}.
Definition set_refOrign (v : vec3) (s : State) : State :=
  {| caseName := caseName s; logFileName := logFileName s; info1FileName := info1FileName s;
     infinFileName := infinFileName s; infoutFileName := infoutFileName s;
     symmPlane := symmPlane s; SymmPlaneType := SymmPlaneType s; indexLift := indexLift s;
     indexDrag := indexDrag s; indexSide := indexSide s; refPres := refPres s;
     refTemp := refTemp s; refVels := refVels s; refVmag := refVmag s; refDens := refDens s;
     refMach := refMach s; numBounds := numBounds s; noSlipWalls := noSlipWalls s;
     alpha := alpha s; refArea := refArea s; refLength := refLength s; refOrign := v;
     force_tol := force_tol s; force_inv := force_inv s; force_vis := force_vis s;
     moment := moment s; div_moment := div_moment s;
     xCenterOfPressure := xCenterOfPressure s; idUpper := idUpper s; idLower := idLower s |}.
Definition set_force_tol (v : vec3) (s : State) : State :=
  {| caseName := caseName s; logFileName := logFileName s; info1FileName := info1FileName s;
     infinFileName := infinFileName s; infoutFileName := infoutFileName s;
     symmPlane := symmPlane s; SymmPlaneType := SymmPlaneType s; indexLift := indexLift s;
     indexDrag := indexDrag s; indexSide := indexSide s; refPres := refPres s;
     refTemp := refTemp s; refVels := refVels s; refVmag := refVmag s; refDens := refDens s;
     refMach := refMach s; numBounds := numBounds s; noSlipWalls := noSlipWalls s;
     alpha := alpha s; refArea := refArea s; refLength := refLength s;
     refOrign := refOrign s; force_tol := v; force_inv := force_inv s;
     force_vis := force_vis s; moment := moment s; div_moment := div_moment s;
     xCenterOfPressure := xCenterOfPressure s; idUpper := idUpper s; idLower := idLower s |}.
Definition set_force_inv (v : vec3) (s : State) : State :=
  {| caseName := caseName s; logFileName := logFileName s; info1FileName := info1FileName s;
     infinFileName := infinFileName s; infoutFileName := infoutFileName s;
     symmPlane := symmPlane s; SymmPlaneType := SymmPlaneType s; indexLift := indexLift s;
     indexDrag := indexDrag s; indexSide := indexSide s; refPres := refPres s;
     refTemp := refTemp s; refVels := refVels s; refVmag := refVmag s; refDens := refDens s;
     refMach := refMach s; numBounds := numBounds s; noSlipWalls := noSlipWalls s;
     alpha := alpha s; refArea := refArea s; refLength := refLength s;
     refOrign := refOrign s; force_tol := force_tol s; force_inv := v;
     force_vis := force_vis s; moment := moment s; div_moment := div_moment s;
     xCenterOfPressure := xCenterOfPressure s; idUpper := idUpper s; idLower := idLower s |}.
Definition set_force_vis (v : vec3) (s : State) : State :=
  {| caseName := caseName s; logFileName := logFileName s; info1FileName := info1FileName s;
     infinFileName := infinFileName s; infoutFileName := infoutFileName s;
     symmPlane := symmPlane s; SymmPlaneType := SymmPlaneType s; indexLift := indexLift s;
     indexDrag := indexDrag s; indexSide := indexSide s; refPres := refPres s;
     refTemp := refTemp s; refVels := refVels s; refVmag := refVmag s; refDens := refDens s;
     refMach := refMach s; numBounds := numBounds s; noSlipWalls := noSlipWalls s;
     alpha := alpha s; refArea := refArea s; refLength := refLength s;
     refOrign := refOrign s; force_tol := force_tol s; force_inv := force_inv s;
     force_vis := v; moment := moment s; div_moment := div_moment s;
     xCenterOfPressure := xCenterOfPressure s; idUpper := idUpper s; idLower := idLower s |}.
Definition set_moment (v : vec3) (s : State) : State :=
  {| caseName := caseName s; logFileName := logFileName s; info1FileName := info1FileName s;
     infinFileName := infinFileName s; infoutFileName := infoutFileName s;
     symmPlane := symmPlane s; SymmPlaneType := SymmPlaneType s; indexLift := indexLift s;
     indexDrag := indexDrag s; indexSide := indexSide s; refPres := refPres s;
     refTemp := refTemp s; refVels := refVels s; refVmag := refVmag s; refDens := refDens s;
     refMach := refMach s; numBounds := numBounds s; noSlipWalls := noSlipWalls s;
     alpha := alpha s; refArea := refArea s; refLength := refLength s;
     refOrign := refOrign s; force_tol := force_tol s; force_inv := force_inv s;
     force_vis := force_vis s; moment := v; div_moment := div_moment s;
     xCenterOfPressure := xCenterOfPressure s; idUpper := idUpper s; idLower := idLower s |}.
Definition set_idUpper (v : Z) (s : State) : State :=
  {| caseName := caseName s; logFileName := logFileName s; info1FileName := info1FileName s;
     infinFileName := infinFileName s; infoutFileName := infoutFileName s;
     symmPlane := symmPlane s; SymmPlaneType := SymmPlaneType s; indexLift := indexLift s;
     indexDrag := indexDrag s; indexSide := indexSide s; refPres := refPres s;
     refTemp := refTemp s; refVels := refVels s; refVmag := refVmag s; refDens := refDens s;
     refMach := refMach s; numBounds := numBounds s; noSlipWalls := noSlipWalls s;
     alpha := alpha s; refArea := refArea s; refLength := refLength s;
     refOrign := refOrign s; force_tol := force_tol s; force_inv := force_inv s;
     force_vis := force_vis s; moment := moment s; div_moment := div_moment s;
     xCenterOfPressure := xCenterOfPressure s; idUpper := v; idLower := idLower s |}.
Definition set_idLower (v : Z) (s : State) : State :=
  {| caseName := caseName s; logFileName := logFileName s; info1FileName := info1FileName s;
     infinFileName := infinFileName s; infoutFileName := infoutFileName s;
     symmPlane := symmPlane s; SymmPlaneType := SymmPlaneType s; indexLift := indexLift s;
     indexDrag := indexDrag s; indexSide := indexSide s; refPres := refPres s;
     refTemp := refTemp s; refVels := refVels s; refVmag := refVmag s; refDens := refDens s;
     refMach := refMach s; numBounds := numBounds s; noSlipWalls := noSlipWalls s;
     alpha := alpha s; refArea := refArea s; refLength := refLength s;
     refOrign := refOrign s; force_tol := force_tol s; force_inv := force_inv s;
     force_vis := force_vis s; moment := moment s; div_moment := div_moment s;
     xCenterOfPressure := xCenterOfPressure s; idUpper := idUpper s; idLower := v |}.

(** *** [__Validate] and [__init__] *)

(** [__Validate]: the flag it returns and the lines it prints. *)
Definition Validate (fs : FS)
    (caseName logFileName info1FileName infinFileName infoutFileName : string)
    : bool * list string :=
  let isValidated := true in
  (* validate folder *)
  let isValidated := if negb (path_exists fs caseName) then false else isValidated in
  (* check log file *)
  let '(isValidated, out1) :=
    if isValidated && negb (path_exists fs logFileName)
    then (false, ["File not Found:" ++ logFileName])
    else (isValidated, []) in
  (* check mcfd.info1 file *)
  let '(isValidated, out2) :=
    if isValidated && negb (path_exists fs info1FileName)
    then (false, ["File not Found:" ++ info1FileName])
    else (isValidated, []) in
  (* check infout1f file *)
  let '(isValidated, out3) :=
    if isValidated && (negb (path_exists fs infinFileName) &&
                       negb (path_exists fs infoutFileName))
    then (false, ["File not Found:" ++ infinFileName ++ " or " ++ infoutFileName])
    else (isValidated, []) in
  (isValidated, (out1 ++ out2 ++ out3)%list).

(** The attribute values [__init__] assigns after the validation call. *)
Definition initial (caseName : string) : State :=
  {| caseName := caseName;
     logFileName := caseName ++ "/" ++ caseName ++ ".log";
     info1FileName := caseName ++ "/mcfd.info1";
     infinFileName := caseName ++ "/infout1f.inp";
     infoutFileName := caseName ++ "/infout1f.out";
     symmPlane := none;
     SymmPlaneType := None;
     indexLift := -99;
     indexDrag := -99;
     indexSide := -99;
     refPres := f0_0;
     refTemp := f0_0;
     refVels := vzero;
     refVmag := f0_0;
     refDens := f0_0;
     refMach := f0_0;
     numBounds := 0;
     noSlipWalls := [];
     alpha := f0_0;
     refArea := f0_0;
     refLength := f0_0;
     refOrign := vzero;
     force_tol := vzero;
     force_inv := vzero;
     force_vis := vzero;
     moment := vzero;
     div_moment := f0_0;
     xCenterOfPressure := f0_0;
     idUpper := -1;
     idLower := -1 |}.

(** [CFDppParser(caseName)]: what the constructor prints and what it
    returns. The statement [self.__Validate()] drops the returned flag. *)
Definition CFDppParser (fs : FS) (caseName : string) : list string * res State :=
  let st := initial caseName in
  let '(_, out) := Validate fs caseName (logFileName st) (info1FileName st)
                            (infinFileName st) (infoutFileName st) in
  (out, Ok st).

(** *** Lines and fields *)

(** [line.split()[i]]. *)
Definition field (line : string) (i : Z) : res string := py_index (py_split line) i.

(** [key in line and len(line.split()) == 3]. *)
Definition keyed3 (key line : string) : bool :=
  py_in key line && (len (py_split line) =? 3).

(** [if c: st = body]. *)
Definition when (c : bool) (body : res State) (st : State) : res State :=
  if c then body else Ok st.

(** *** [__ReadRefVals] *)

Definition scanRefLine (st : State) (line : string) : res State :=
  st ← when (keyed3 "aero_pres" line)
         (v ← field line 2 ≫= float_of_string; Ok (set_refPres v st)) st;
  st ← when (keyed3 "aero_temp" line)
         (v ← field line 2 ≫= float_of_string; Ok (set_refTemp v st)) st;
  st ← when (keyed3 "aero_u" line)
         (v ← field line 2 ≫= float_of_string; Ok (set_refVels (set0 v (refVels st)) st)) st;
  st ← when (keyed3 "aero_v" line)
         (v ← field line 2 ≫= float_of_string; Ok (set_refVels (set1 v (refVels st)) st)) st;
  when (keyed3 "aero_w" line)
    (v ← field line 2 ≫= float_of_string; Ok (set_refVels (set2 v (refVels st)) st)) st.

(** [for vel in self.refVels: self.refVmag += vel*vel]. *)
Definition sumSquares (st : State) : State :=
  fold_left (fun s vel => set_refVmag (fadd (refVmag s) (fmul vel vel)) s)
            (items (refVels st)) st.

(** The statements after the scan: magnitude, density, Mach number. *)
Definition deriveRefVals (st : State) : res State :=
  let st := sumSquares st in
  vmag ← fsqrt (refVmag st);
  let st := set_refVmag vmag st in
  q ← fdiv (refPres st) const_R;
  dens ← fdiv q (refTemp st);
  let st := set_refDens dens st in
  sound_speed ← fsqrt (fmul (fmul const_gamma const_R) (refTemp st));
  mach ← fdiv (refVmag st) sound_speed;
  Ok (set_refMach mach st).

Definition ReadRefVals (fs : FS) (st : State) : res State :=
  try_exit (
    lines ← readlines fs (logFileName st);
    st ← forM scanRefLine lines st;
    deriveRefVals st).

(** *** [__ReadBcInfos] *)

(** The first loop: the first keyed line sets [numBounds] and ends it. *)
Fixpoint scanNumBounds (lines : list string) (st : State) : res State :=
  match lines with
  | [] => Ok st
  | line :: rest =>
    if keyed3 "mbcons" line
    then n ← field line 2 ≫= int_of_string; Ok (set_numBounds n st)
    else scanNumBounds rest st
  end.

Definition noSlipMarker : string := "# No-slip adiabatic wall".

(** One turn of the second loop, on the local [staIndex] and the object. *)
Definition noSlipStep (lines : list string) (acc : Z * State) (line : string)
    : res (Z * State) :=
  let '(staIndex, st) := acc in
  if py_in noSlipMarker line then
    staIndex ← py_list_index line staIndex lines;
    above ← py_index lines (staIndex - 2);
    noSlipWall ← py_index (py_split above) 1;
    n ← int_of_string noSlipWall;
    Ok (staIndex + 1, set_noSlipWalls (noSlipWalls st ++ [n])%list st)
  else Ok acc.

Definition ReadBcInfos (fs : FS) (st : State) : res State :=
  try_exit (
    lines ← readlines fs (logFileName st);
    st ← scanNumBounds lines st;
    acc ← forM (noSlipStep lines) lines (0, st);
    Ok (snd acc)).

(** *** [IsClDriverCase] and [__ReadRefGeomVals] *)

Definition IsClDriverCase (fs : FS) (st : State) : res bool :=
  try_exit (
    inpTexts ← readlines fs (logFileName st);
    Ok (existsb (py_in "cldriver_controls") inpTexts)).

Definition setPlane (plane : string) (st : State) : State :=
  if String.eqb plane "xy" then
    set_indexSide 2 (set_indexLift 1 (set_indexDrag 0 (set_SymmPlaneType (Some xyPlane) st)))
  else
    set_indexSide 1 (set_indexLift 2 (set_indexDrag 0 (set_SymmPlaneType (Some xzPlane) st))).

Definition scanGeomLine (st : State) (line : string) : res State :=
  st ← when (py_in "alpha" line)
         (v ← field line 1 ≫= float_of_string; Ok (set_alpha v st)) st;
  st ← when (py_in "axref" line)
         (v ← field line 1 ≫= float_of_string; Ok (set_refArea v st)) st;
  st ← when (py_in "lxref" line)
         (v ← field line 1 ≫= float_of_string; Ok (set_refLength v st)) st;
  st ← when (py_in "xcen" line)
         (v ← field line 1 ≫= float_of_string; Ok (set_refOrign (set0 v (refOrign st)) st)) st;
  st ← when (py_in "ycen" line)
         (v ← field line 1 ≫= float_of_string; Ok (set_refOrign (set1 v (refOrign st)) st)) st;
  st ← when (py_in "zcen" line)
         (v ← field line 1 ≫= float_of_string; Ok (set_refOrign (set2 v (refOrign st)) st)) st;
  when (py_in "plane" line)
    (plane ← field line 1; Ok (setPlane plane st)) st.

(** The file the geometry values are read from, opened and read. *)
Definition geomLines (fs : FS) (st : State) : res (list string) :=
  isCl ← IsClDriverCase fs st;
  let infFileName := if isCl : bool then infoutFileName st else infinFileName st in
  readlines fs infFileName.

Definition ReadRefGeomVals (fs : FS) (st : State) : res State :=
  try_exit (
    lines ← geomLines fs st;
    forM scanGeomLine lines st).

(** *** [__ReadForces] *)

(** [float(lines[i].split()[j])]. *)
Definition cell (lines : list string) (i j : Z) : res F :=
  line ← py_index lines i;
  py_index (py_split line) j ≫= float_of_string.

(** The four accumulated lists, each with its assignment. *)
Inductive loadAttr : Type := a_force_tol | a_force_inv | a_force_vis | a_moment.

Definition getLoad (a : loadAttr) (st : State) : vec3 :=
  match a with
  | a_force_tol => force_tol st
  | a_force_inv => force_inv st
  | a_force_vis => force_vis st
  | a_moment => moment st
  end.

Definition putLoad (a : loadAttr) (v : vec3) (st : State) : State :=
  match a with
  | a_force_tol => set_force_tol v st
  | a_force_inv => set_force_inv v st
  | a_force_vis => set_force_vis v st
  | a_moment => set_moment v st
  end.

(** The literal item indices [0], [1], [2]. *)
Inductive item : Type := i0 | i1 | i2.

Definition getItem (k : item) (v : vec3) : F :=
  match k with i0 => vx v | i1 => vy v | i2 => vz v end.

Definition setItem (k : item) (x : F) (v : vec3) : vec3 :=
  match k with i0 => set0 x v | i1 => set1 x v | i2 => set2 x v end.

(** [self.a[k] += float(lines[i].split()[j])]. *)
Definition plusEq (a : loadAttr) (k : item) (lines : list string) (i j : Z) (st : State)
    : res State :=
  x ← cell lines i j;
  Ok (putLoad a (setItem k (fadd (getItem k (getLoad a st)) x) (getLoad a st)) st).

(** The body of [if ibc+1 in self.noSlipWalls]: twelve [+=] in order. *)
Definition addBlock (lines : list string) (blockIndex : Z) (st : State) : res State :=
  (* force x *)
  st ← plusEq a_force_tol i0 lines (blockIndex + 3) 2 st;
  st ← plusEq a_force_inv i0 lines (blockIndex + 3) 3 st;
  st ← plusEq a_force_vis i0 lines (blockIndex + 3) 4 st;
  (* force y *)
  st ← plusEq a_force_tol i1 lines (blockIndex + 4) 2 st;
  st ← plusEq a_force_inv i1 lines (blockIndex + 4) 3 st;
  st ← plusEq a_force_vis i1 lines (blockIndex + 4) 4 st;
  (* force z *)
  st ← plusEq a_force_tol i2 lines (blockIndex + 5) 2 st;
  st ← plusEq a_force_inv i2 lines (blockIndex + 5) 3 st;
  st ← plusEq a_force_vis i2 lines (blockIndex + 5) 4 st;
  (* x/y/z moment *)
  st ← plusEq a_moment i0 lines (blockIndex + 6) 2 st;
  st ← plusEq a_moment i1 lines (blockIndex + 7) 2 st;
  plusEq a_moment i2 lines (blockIndex + 8) 2 st.

(** One turn of [for ibc in range(self.numBounds)]. *)
Definition forcesStep (lines : list string) (staIndex : Z) (st : State) (ibc : Z)
    : res State :=
  let blockIndex := staIndex + ibc * 23 in
  if py_mem (ibc + 1) (noSlipWalls st) then addBlock lines blockIndex st else Ok st.

Definition ReadForces (fs : FS) (st : State) : res State :=
  try_exit (
    lines ← readlines fs (info1FileName st);
    let numLines := len lines in
    let staIndex := numLines - 23 * numBounds st + 1 in
    forM (forcesStep lines staIndex) (range (numBounds st)) st).

(** *** [Process] *)

Definition Process (fs : FS) (st : State) : res State :=
  st ← ReadRefVals fs st;
  st ← ReadBcInfos fs st;
  st ← ReadRefGeomVals fs st;
  ReadForces fs st.

(** *** [FindWing] *)

(** One turn of the loop on the local flags and the object. The source
    initialises [isWingLowerFoudn] and reads [isWingLowerFound]: the second
    flag is unbound until a [WINGLOWER] line binds it. *)
Definition findWingStep (acc : bool * option bool * State) (line : string)
    : res (bool * option bool * State) :=
  let '(isWingUpperFound, isWingLowerFound, st) := acc in
  '(isWingUpperFound, st) ←
    (if py_in "WINGUPPER" line
     then n ← field line 0 ≫= int_of_string; Ok (true, set_idUpper n st)
     else Ok (isWingUpperFound, st));
  if py_in "WINGLOWER" line
  then n ← field line 0 ≫= int_of_string; Ok (isWingUpperFound, Some true, set_idLower n st)
  else Ok (isWingUpperFound, isWingLowerFound, st).

Definition FindWing (fs : FS) (st : State) : res (bool * State) :=
  inpTexts ← readlines fs (logFileName st);
  '(isWingUpperFound, isWingLowerFound, st) ← forM findWingStep inpTexts (false, None, st);
  if isWingUpperFound : bool then
    match isWingLowerFound with
    | Some b => Ok (b, st)
    | None => Raise UnboundLocalError
    end
  else Ok (false, st).

(** *** The coefficient getters *)

Context {PM : PyMath PF}.

(** [math.radians(x)]. *)
Definition radians (x : F) : F := fmul x degToRad.

(** [0.5*self.refDens*self.refVmag*self.refVmag*self.refArea]. *)
Definition coeff_div (st : State) : F :=
  fmul (fmul (fmul (fmul f0_5 (refDens st)) (refVmag st)) (refVmag st)) (refArea st).

(** [(f[indexLift]*cos(radians(alpha)) - f[indexDrag]*sin(radians(alpha)))/coeff_div]. *)
Definition liftOf (st : State) (f : vec3) (coeff_div : F) : res F :=
  fl ← vget f (indexLift st);
  c ← f_cos (radians (alpha st));
  fd ← vget f (indexDrag st);
  s ← f_sin (radians (alpha st));
  fdiv (fsub (fmul fl c) (fmul fd s)) coeff_div.

(** [(f[indexLift]*sin(radians(alpha)) + f[indexDrag]*cos(radians(alpha)))/coeff_div]. *)
Definition dragOf (st : State) (f : vec3) (coeff_div : F) : res F :=
  fl ← vget f (indexLift st);
  s ← f_sin (radians (alpha st));
  fd ← vget f (indexDrag st);
  c ← f_cos (radians (alpha st));
  fdiv (fadd (fmul fl s) (fmul fd c)) coeff_div.

Definition GetCoeffLift (st : State) : res vec3 :=
  let coeff_div := coeff_div st in
  cl0 ← liftOf st (force_tol st) coeff_div;
  cl1 ← liftOf st (force_inv st) coeff_div;
  cl2 ← liftOf st (force_vis st) coeff_div;
  Ok (Vec3 cl0 cl1 cl2).

Definition GetCoeffDrag (st : State) : res vec3 :=
  let coeff_div := coeff_div st in
  cd0 ← dragOf st (force_tol st) coeff_div;
  cd1 ← dragOf st (force_inv st) coeff_div;
  cd2 ← dragOf st (force_vis st) coeff_div;
  Ok (Vec3 cd0 cd1 cd2).

End Parser.

(** ** The remaining getters of [cfdppparser.py] *)

Section Getters.
Context {PF : PyFloat} {PM : PyMath PF}.

(** [cl = self.GetCoeffLift(); cd = self.GetCoeffDrag(); ld = cl[0]/cd[0]]. *)
Definition GetLDRatio (st : State) : res F :=
  cl ← GetCoeffLift st;
  cd ← GetCoeffDrag st;
  fdiv (vx cl) (vx cd).

(** [(moment[side] + force_tol[lift]*refOrign[drag]
      - force_tol[drag]*refOrign[lift]) / coeff_div], with
    [coeff_div = 0.5*refDens*refVmag*refVmag*refArea*refLength]. *)
Definition GetCoeffMoment (st : State) : res F :=
  let coeff_div := fmul (coeff_div st) (refLength st) in
  m ← vget (moment st) (indexSide st);
  fl ← vget (force_tol st) (indexLift st);
  od ← vget (refOrign st) (indexDrag st);
  fd ← vget (force_tol st) (indexDrag st);
  ol ← vget (refOrign st) (indexLift st);
  fdiv (fsub (fadd m (fmul fl od)) (fmul fd ol)) coeff_div.

(** [self.moment[self.indexSide]/self.force_tol[self.indexLift]]. *)
Definition GetCenterOfPressure (st : State) : res F :=
  m ← vget (moment st) (indexSide st);
  fl ← vget (force_tol st) (indexLift st);
  fdiv m fl.

(** [wings = []; wings.append(self.idUpper); wings.append(self.idLower)]. *)
Definition GetWingBoundaryIds (st : State) : list Z := [idUpper st; idLower st].
End Getters.

(** ** [WriteMcrOutputContour] of [tecplotkits.py] *)

(** [str(n)] for an integer. *)
Definition str_int (n : Z) : string := NilZero.string_of_int (Z.to_int n).

(** The three view angles a view type selects, each as [str] prints the
    float assigned: [str(90.0)] is ["90.0"], and so on. A view type the
    chain of tests does not name leaves the three at their initial [0.0]. *)
Definition viewAngles (viewType : string) : string * string * string :=
  if String.eqb viewType "+X view" then ("90.0", "-90.0", "0.0")
  else if String.eqb viewType "-X view" then ("0.0", "90.0", "0.0")
  else if String.eqb viewType "+Y view" then ("90.0", "180.0", "0.0")
  else if String.eqb viewType "-Y view" then ("90.0", "0.0", "0.0")
  else if String.eqb viewType "+Z view" then ("0.0", "0.0", "0.0")
  else if String.eqb viewType "-Z view" then ("180.0", "-180.0", "0.0")
  else ("0.0", "0.0", "0.0").

Section Tecplot.
(** The contour levels and how [str] prints one. *)
Context {A : Type} (str_level : A -> string).

Definition nl : string := String "010"%char EmptyString.

Definition WriteMcrOutputContour (numZones : Z) (surfZones : list Z) (varIndex : Z)
    (levels : list A) (viewType outputFile : string) : res (list string) :=
  let mcrText :=
    [ "#######################################" ++ nl;
      "## Output Pressure Contour" ++ nl;
      "#######################################" ++ nl;
      (* turn off showshade and light effect *)
      "$!FIELDLAYERS SHOWSHADE = NO" ++ nl;
      "$!FIELDLAYERS USELIGHTINGEFFECT = NO" ++ nl ] in
  (* switch on surface zones ONLY *)
  let mcrText := app mcrText
    (map (fun i => "$!ACTIVEFIELDMAPS -= [" ++ str_int (i + 1) ++ "]" ++ nl)
         (range numZones)) in
  let mcrText := app mcrText
    (map (fun i => "$!ACTIVEFIELDMAPS += [" ++ str_int i ++ "]" ++ nl) surfZones) in
  let mcrText := app mcrText
    [ "$!GLOBALRGB REDCHANNELVAR = 9" ++ nl;
      "$!GLOBALRGB GREENCHANNELVAR = 4" ++ nl;
      "$!GLOBALRGB BLUECHANNELVAR = 4" ++ nl;
      "$!SETCONTOURVAR" ++ nl;
      "  VAR = " ++ str_int varIndex ++ nl;
      "  CONTOURGROUP = 1" ++ nl;
      "  LEVELINITMODE = RESETTONICE" ++ nl;
      "$!FIELDLAYERS SHOWCONTOUR = YES" ++ nl;
      "$!CONTOURLEVELS NEW" ++ nl;
      "  CONTOURGROUP = 1" ++ nl;
      "  RAWDATA" ++ nl ] in
  let numLevels := len levels in
  let mcrText := app mcrText [ str_int numLevels ++ nl ] in
  let mcrText := app mcrText (map (fun level => str_level level ++ nl) levels) in
  first ← py_index surfZones 0;
  last ← py_index surfZones (-1);
  let allSurfZones := str_int first ++ "-" ++ str_int last in
  let mcrText := app mcrText
    [ "$!FIELDMAP [" ++ allSurfZones ++ "]  CONTOUR{CONTOURTYPE = BOTHLINESANDFLOOD}" ] in
  let '(psiAngle, thetaAngle, alphaAngle) := viewAngles viewType in
  Ok (app mcrText
    [ "## fit data to the view" ++ nl;
      "$!THREEDVIEW PSIANGLE = " ++ psiAngle ++ nl;
      "$!THREEDVIEW THETAANGLE = " ++ thetaAngle ++ nl;
      "$!THREEDVIEW ALPHAANGLE = " ++ alphaAngle ++ nl;
      "$!VIEW FITSURFACES" ++ nl;
      "## export frame" ++ nl;
      "$!EXPORTSETUP EXPORTFORMAT = JPEG" ++ nl;
      "$!EXPORTSETUP IMAGEWIDTH = 1045" ++ nl;
      "$!EXPORTSETUP QUALITY = 100" ++ nl;
      "$!EXPORTSETUP JPEGENCODING = PROGRESSIVE" ++ nl;
      "$!EXPORTSETUP EXPORTFNAME = '" ++ outputFile ++ "'" ++ nl;
      "$!EXPORT" ++ nl;
      "  EXPORTREGION = CURRENTFRAME" ++ nl;
      "#######################################" ++ nl ++ nl ]).
End Tecplot.

(** ** [WriteMcrVarDistribution] of [tecplotkits.py] *)

Section Distribution.
(** The sections and how [str] prints one. *)
Context {S : Type} (str_section : S -> string).

Definition WriteMcrVarDistribution (section : S) (zoneIndex varIndex : Z)
    (slicePlane outputFile : string) : list string :=
  [ "#######################################" ++ nl;
    "## Variable Distribution at section " ++ str_section section ++ nl;
    "#######################################" ++ nl;
    "## add slice" ++ nl;
    "$!SLICEATTRIBUTES 1  EDGELAYER{SHOW = YES}" ++ nl;
    "$!SLICEATTRIBUTES 1  SLICESOURCE = SURFACEZONES" ++ nl;
    "$!SLICELAYERS SHOW = YES" ++ nl;
    "$!SLICEATTRIBUTES 1  SLICESURFACE =" ++ slicePlane ++ nl;
    "$!SLICEATTRIBUTES 1  PRIMARYPOSITION{Y = " ++ str_section section ++ "}" ++ nl;
    "## extract slice data" ++ nl;
    "$!CREATESLICEZONES" ++ nl;
    "## write slice data" ++ nl;
    "$!WRITEDATASET  " ++ String "034"%char outputFile ++ String "034"%char nl;
    "  INCLUDETEXT = NO" ++ nl;
    "  INCLUDEGEOM = NO" ++ nl;
    "  INCLUDEDATASHARELINKAGE = YES" ++ nl;
    "  ZONELIST =  [" ++ str_int zoneIndex ++ "]" ++ nl;
    "  VARPOSITIONLIST =  [1," ++ str_int varIndex ++ "]" ++ nl;
    "  BINARY = NO" ++ nl;
    "  USEPOINTFORMAT = YES" ++ nl;
    "  PRECISION = 9" ++ nl;
    "  TECPLOTVERSIONTOWRITE = TECPLOTCURRENT" ++ nl;
    (* delete current created zone *)
    "$!DELETEZONES  [" ++ str_int zoneIndex ++ "]" ++ nl;
    "#######################################" ++ nl ++ nl ].
End Distribution.
(** ** A sample case directory *)

Module Sample.

Definition ln (s : string) : string := s ++ String "010"%char EmptyString.

(** [sample/sample.log]: reference conditions, boundary count, and two
    boundaries, the first a no-slip wall. *)
Definition log : list string := map ln
  [ "aero_pres = 101325.0";
    "aero_temp = 288.15";
    "aero_u = 10.0";
    "aero_v = 0.0";
    "aero_w = 0.0";
    "mbcons = 2";
    "bc 1 wing";
    "  group 3";
    "  # No-slip adiabatic wall";
    "bc 2 farfield";
    "  group 1";
    "  # Characteristics-based inflow/outflow" ].

(** [sample/infout1f.inp]. *)
Definition inp : list string := map ln
  [ "alpha 0.0"; "axref 1.0"; "lxref 1.0";
    "xcen 0.0"; "ycen 0.0"; "zcen 0.0"; "plane xy" ].

(** One 23-line block of [mcfd.info1]. *)
Definition block (fx fy fz mx my mz : string) : list string := map ln
  (app [ "boundary"; "  patch"; "  area"; "  flux";
         "x force " ++ fx; "y force " ++ fy; "z force " ++ fz;
         "x moment " ++ mx; "y moment " ++ my; "z moment " ++ mz ]
       (repeat "  ." 13)).

(** [sample/mcfd.info1]: two header lines, then one block per boundary. *)
Definition info1 : list string :=
  (map ln ["mcfd.info1"; "step 1000"]
   ++ block "10.0 8.0 2.0" "0.0 0.0 0.0" "2.0 1.5 0.5" "0.0" "0.0" "5.0"
   ++ block "1.0 1.0 1.0" "1.0 1.0 1.0" "1.0 1.0 1.0" "1.0" "1.0" "1.0")%list.

Definition files (log info1 inp : list string) : FS :=
  [ ("sample", Dir);
    ("sample/sample.log", File log);
    ("sample/mcfd.info1", File info1);
    ("sample/infout1f.inp", File inp) ].

Definition fs : FS := files log info1 inp.

(** The same directory without the report file. *)
Definition fs_no_report : FS :=
  [ ("sample", Dir);
    ("sample/sample.log", File log);
    ("sample/infout1f.inp", File inp) ].

(** A log without a temperature line. *)
Definition log_no_temp : list string :=
  filter (fun l => negb (py_in "aero_temp" l)) log.

(** A log whose first line is the no-slip marker. *)
Definition log_marker_first : list string := map ln
  [ "  # No-slip adiabatic wall";
    "aero_pres = 101325.0";
    "aero_temp = 288.15";
    "aero_u = 10.0";
    "aero_v = 0.0";
    "aero_w = 0.0";
    "mbcons = 2";
    "bc 7 farfield";
    "  group 1" ].

(** A log that declares three boundaries, the first a no-slip wall. *)
Definition log_three : list string := map ln
  [ "aero_pres = 101325.0";
    "aero_temp = 288.15";
    "aero_u = 10.0";
    "aero_v = 0.0";
    "aero_w = 0.0";
    "mbcons = 3";
    "bc 1 wing";
    "  group 3";
    "  # No-slip adiabatic wall" ].

(** A report file of 46 lines: two blocks and nothing else. *)
Definition info1_two_blocks : list string :=
  (block "10.0 8.0 2.0" "0.0 0.0 0.0" "2.0 1.5 0.5" "0.0" "0.0" "5.0"
   ++ block "1.0 1.0 1.0" "1.0 1.0 1.0" "1.0 1.0 1.0" "1.0" "1.0" "1.0")%list.

(** A log in which no boundary is a no-slip wall. *)
Definition log_no_wall : list string :=
  filter (fun l => negb (py_in noSlipMarker l)) log.

(** The directory with the log that has no wall. *)
Definition fs_no_wall : FS := files log_no_wall info1 inp.

(** The parser object for [fs] after one pass and after two, in binary64. *)
Definition once : @State binary64 :=
  returned (initial "sample") (Process fs (initial "sample")).
Definition twice : @State binary64 := returned once (Process fs once).

(** The same after one pass over [fs_no_wall]. *)
Definition once_no_wall : @State binary64 :=
  returned (initial "sample") (Process fs_no_wall (initial "sample")).

(** A C library to run the getters with: [cos] and [sin] by their Taylor
    polynomials of degree 12 and 13, evaluated in binary64, which are
    exact at 0.0 (the angle of attack of the sample case) and close to the
    library's values for the small angles an angle of attack takes; an
    infinity raises [ValueError], as [math.cos] and [math.sin] do;
    [math.radians] multiplies by the double [pi/180]. *)
Definition cos_series (x : float) : float :=
  let x2 := (x * x)%float in
  (1 - x2 / 2 * (1 - x2 / 12 * (1 - x2 / 30 * (1 - x2 / 56 *
    (1 - x2 / 90 * (1 - x2 / 132))))))%float.

Definition sin_series (x : float) : float :=
  let x2 := (x * x)%float in
  (x * (1 - x2 / 6 * (1 - x2 / 20 * (1 - x2 / 42 * (1 - x2 / 72 *
    (1 - x2 / 110 * (1 - x2 / 156)))))))%float.

Definition libm : PyMath binary64 := {|
  f_cos x := if PrimFloat.is_infinity x then Raise ValueError else Ok (cos_series x);
  f_sin x := if PrimFloat.is_infinity x then Raise ValueError else Ok (sin_series x);
  degToRad := f_of_dec false 17453292519943295 (-18);
|}.

(** A log with a pressure of 90000.0 at 202.0 K, and one with the smallest
    positive pressure binary64 has, at 0.001 K. *)
Definition log_dens : list string := map ln
  [ "aero_pres = 90000.0";
    "aero_temp = 202.0" ].
Definition log_tiny : list string := map ln
  [ "aero_pres = 5e-324";
    "aero_temp = 0.001" ].

(** What the reference-condition reader leaves of a new object for the
    sample log and for these two. *)
Definition ref_once : @State binary64 :=
  returned (initial "sample") (ReadRefVals fs (initial "sample")).
Definition ref_dens : @State binary64 :=
  returned (initial "sample") (ReadRefVals (files log_dens info1 inp) (initial "sample")).
Definition ref_tiny : @State binary64 :=
  returned (initial "sample") (ReadRefVals (files log_tiny info1 inp) (initial "sample")).

(** The case directory, empty. *)
Definition fs_dir_only : FS := [ ("sample", Dir) ].

(** The directory with the output geometry file in place of the input
    one; the log names no [cldriver_controls]. *)
Definition fs_out_only : FS :=
  [ ("sample", Dir);
    ("sample/sample.log", File log);
    ("sample/mcfd.info1", File info1);
    ("sample/infout1f.out", File inp) ].

(** A log that gives the pressure twice and the boundary count twice, and
    has two walls under marker lines of the same text. *)
Definition log_repeats : list string := map ln
  [ "aero_pres = 90000.0";
    "aero_pres = 101325.0";
    "aero_temp = 288.15";
    "mbcons = 2";
    "bc 1 wing";
    "  group 3";
    "  # No-slip adiabatic wall";
    "bc 2 tail";
    "  group 3";
    "  # No-slip adiabatic wall";
    "mbcons = 5" ].

(** A log that names the upper wing surface and not the lower one. *)
Definition log_wing_upper : list string := map ln
  [ "aero_pres = 101325.0";
    "3 WINGUPPER" ].

(** A log that names both wing surfaces, the upper one twice. *)
Definition log_wing : list string := map ln
  [ "3 WINGUPPER";
    "4 WINGLOWER";
    "7 WINGUPPER" ].

Definition fs_repeats : FS := files log_repeats info1 inp.
Definition fs_wing_upper : FS := files log_wing_upper info1 inp.
Definition fs_wing : FS := files log_wing info1 inp.

(** What the readers leave of a new object, in binary64: the reference
    conditions and the boundary data of [fs_repeats], the geometry of
    [fs]. *)
Definition ref_repeats : @State binary64 :=
  returned (initial "sample") (ReadRefVals fs_repeats (initial "sample")).
Definition bc_repeats : @State binary64 :=
  returned (initial "sample") (ReadBcInfos fs_repeats (initial "sample")).
Definition geom_once : @State binary64 :=
  returned (initial "sample") (ReadRefGeomVals fs (initial "sample")).

(** The scan of [FindWing] over [log_wing_upper], and its answer over
    [log_wing]. *)
Definition wing_upper_scan : bool * option bool * @State binary64 :=
  returned (false, None, initial "sample")
           (forM findWingStep log_wing_upper (false, None, initial "sample")).
Definition wing_found : bool * @State binary64 :=
  returned (false, initial "sample") (FindWing fs_wing (initial "sample")).

(** A contour macro for two zones, both surface zones, and no levels. *)
Definition contour : list string :=
  returned [] (WriteMcrOutputContour (fun s : string => s) 2 [1; 2] 9 [] "+Y view" "cp.jpg").

End Sample.

(** ** Vocabulary of the properties *)

Section Vocabulary.
Context {PF : PyFloat}.

(** *** What each reader may assign

    [with_ref ... st] is [st] with the six reference values reassigned;
    likewise for the boundary infos, the geometry values (with the axis
    indices and [SymmPlaneType]), the four accumulated lists, and the wing
    ids. [modifies_ref st st'] says that [st'] differs from [st] in the
    reference values at most. *)

Definition with_ref (p t : F) (v : vec3) (m d ma : F) (st : State) : State :=
  set_refMach ma (set_refDens d (set_refVmag m (set_refVels v (set_refTemp t (set_refPres p st))))).

Definition with_bc (n : Z) (walls : list Z) (st : State) : State :=
  set_noSlipWalls walls (set_numBounds n st).

Definition with_geom (a area length : F) (orign : vec3)
    (spt : option SymmetryPlaneType) (drag lift side : Z) (st : State) : State :=
  set_indexSide side (set_indexLift lift (set_indexDrag drag (set_SymmPlaneType spt
    (set_refOrign orign (set_refLength length (set_refArea area (set_alpha a st))))))).

Definition with_loads (ft fi fv m : vec3) (st : State) : State :=
  set_moment m (set_force_vis fv (set_force_inv fi (set_force_tol ft st))).

Definition with_wing (upper lower : Z) (st : State) : State :=
  set_idLower lower (set_idUpper upper st).

(** [st'] is [st] with the reference values reassigned, and so on. *)
Definition modifies_ref (st st' : State) : Prop :=
  st' = with_ref (refPres st') (refTemp st') (refVels st') (refVmag st')
                 (refDens st') (refMach st') st.
Definition modifies_bc (st st' : State) : Prop :=
  st' = with_bc (numBounds st') (noSlipWalls st') st.
Definition modifies_geom (st st' : State) : Prop :=
  st' = with_geom (alpha st') (refArea st') (refLength st') (refOrign st')
                  (SymmPlaneType st') (indexDrag st') (indexLift st') (indexSide st') st.
Definition modifies_loads (st st' : State) : Prop :=
  st' = with_loads (force_tol st') (force_inv st') (force_vis st') (moment st') st.
Definition modifies_wing (st st' : State) : Prop :=
  st' = with_wing (idUpper st') (idLower st') st.

(** The loop of the force reader run over the given block numbers, with
    no membership test. *)
Definition addBlocks (lines : list string) (staIndex : Z) (l : list Z) (st : State)
    : res State :=
  forM (fun s ibc => addBlock lines (staIndex + ibc * 23) s) l st.

(** The block numbers [ibc] whose boundary [ibc+1] is a no-slip wall. *)
Definition contributing (st : State) : list Z :=
  List.filter (fun ibc => py_mem (ibc + 1) (noSlipWalls st)) (range (numBounds st)).

(** [(indexDrag, indexLift, indexSide)]. *)
Definition axes (st : State) : Z * Z * Z := (indexDrag st, indexLift st, indexSide st).

(** The assignment the two branches of the geometry reader make. *)
Definition axesOfToken (plane : string) : Z * Z * Z :=
  if String.eqb plane "xy" then (0, 1, 2) else (0, 2, 1).

(** The token of a line of the geometry file that holds [plane]. *)
Definition planeToken (line : string) : option string :=
  if py_in "plane" line
  then match field line 1 with Ok plane => Some plane | _ => None end
  else None.

(** The states a parser object built for [name] can be in: the
    constructor's, and any a reader or [FindWing] leaves. *)
Inductive reachable (fs : FS) (name : string) : State -> Prop :=
| reach_init : reachable fs name (initial name)
| reach_RefVals st st' :
    reachable fs name st -> ReadRefVals fs st = Ok st' -> reachable fs name st'
| reach_BcInfos st st' :
    reachable fs name st -> ReadBcInfos fs st = Ok st' -> reachable fs name st'
| reach_RefGeomVals st st' :
    reachable fs name st -> ReadRefGeomVals fs st = Ok st' -> reachable fs name st'
| reach_Forces st st' :
    reachable fs name st -> ReadForces fs st = Ok st' -> reachable fs name st'
| reach_FindWing st found st' :
    reachable fs name st -> FindWing fs st = Ok (found, st') -> reachable fs name st'.

(** The orientation the geometry reader records, in the attribute
    [SymmPlaneType]. *)
Definition planeOfToken (plane : string) : SymmetryPlaneType :=
  if String.eqb plane "xy" then xyPlane else xzPlane.

End Vocabulary.

(** *** The formulas of the specification, in the float operations *)

Section Formulas.
Context {PF : PyFloat}.






End Formulas.

(** *** Comparing binary64 results *)





(** *** What the scans read *)

Section Scans.
Context {PF : PyFloat}.

(** The value a line of the geometry file gives for a key: the second
    field as a float, when the line holds the key. *)
Definition geomValue (key line : string) : option F :=
  if py_in key line
  then match field line 1 ≫= float_of_string with Ok v => Some v | _ => None end
  else None.

(** The value a line of the log gives for a reference-condition key: the
    third field as a float, when the line is keyed and has three fields. *)
Definition refValue (key line : string) : option F :=
  if keyed3 key line
  then match field line 2 ≫= float_of_string with Ok v => Some v | _ => None end
  else None.
End Scans.

(** The boundary a marker line at position [pos] names: the integer in the
    second field of the line two above, by Python's indexing. *)
Definition wallAbove (all : list string) (pos : Z) : res Z :=
  above ← py_index all (pos - 2);
  tok ← py_index (py_split above) 1;
  int_of_string tok.

(** The boundaries named by the marker lines of [rest], the lines of [all]
    from position [pos] on, each taken at its own position. *)
Fixpoint wallsFrom (all rest : list string) (pos : Z) : res (list Z) :=
  match rest with
  | [] => Ok []
  | line :: rest' =>
    if py_in noSlipMarker line then
      n ← wallAbove all pos;
      ns ← wallsFrom all rest' (pos + 1);
      Ok (n :: ns)
    else wallsFrom all rest' (pos + 1)
  end.

(** The boundary id a line of the log gives for a wing surface: its first
    field as an integer, when the line holds the surface's name. *)
Definition wingId (key line : string) : option Z :=
  if py_in key line
  then match field line 0 ≫= int_of_string with Ok n => Some n | _ => None end
  else None.

(** The keys the geometry reader looks for in a line. *)
Definition geomKeys : list string :=
  ["alpha"; "axref"; "lxref"; "xcen"; "ycen"; "zcen"; "plane"].

(** [s] ends with a line end. *)
Fixpoint ends_nl (s : string) : bool :=
  match s with
  | EmptyString => false
  | String c EmptyString => Ascii.eqb c "010"%char
  | String _ s' => ends_nl s'
  end.
(** * Properties *)

(** ** Results *)

Lemma bind_Ok {A B} (m : res A) (k : A -> res B) (b : B) :
  m ≫= k = Ok b -> exists a, m = Ok a /\ k a = Ok b.
Proof. destruct m as [a| |]; simpl; intros H; [eauto | discriminate..]. Qed.

Lemma try_exit_Ok {A} (m : res A) (a : A) : try_exit m = Ok a -> m = Ok a.
Proof. destruct m; simpl; congruence. Qed.

Lemma fmap_Ok {A B} (f : A -> B) (m : res A) (b : B) :
  f <$> m = Ok b -> exists a, m = Ok a /\ b = f a.
Proof. destruct m as [a| |]; simpl; intros H; [injection H as <-; eauto | discriminate..]. Qed.

(** Turns a hypothesis [m = Ok b] on a sequence of binds into its steps. *)
Ltac res_inv :=
  repeat match goal with
  | H : try_exit _ = Ok _ |- _ => apply try_exit_Ok in H
  | H : mbind _ _ = Ok _ |- _ =>
    let a := fresh "a" in let Ha := fresh "Ha" in
    apply bind_Ok in H; destruct H as (a & Ha & H)
  | H : Ok _ = Ok _ |- _ => injection H as H
  | H : Raise _ = Ok _ |- _ => discriminate H
  | H : Exit1 _ = Ok _ |- _ => discriminate H
  end.

(** A relation that holds across every turn of a loop holds across the loop. *)
Lemma forM_rel {S A} (body : S -> A -> res S) (P : S -> S -> Prop) :
  (forall s, P s s) ->
  (forall s1 s2 s3, P s1 s2 -> P s2 s3 -> P s1 s3) ->
  (forall s x s', body s x = Ok s' -> P s s') ->
  forall l s s', forM body l s = Ok s' -> P s s'.
Proof.
  intros Hrefl Htrans Hstep l.
  induction l as [|x l IH]; simpl; intros s s' H.
  - injection H as <-. apply Hrefl.
  - res_inv. eauto.
Qed.

(** Two states built from the same record by attribute assignments. *)
Ltac by_record :=
  intros; repeat match goal with s : State |- _ => destruct s end; reflexivity.

Section Footprints.
Context {PF : PyFloat}.

Lemma modifies_ref_refl st : modifies_ref st st. Proof. unfold modifies_ref. by_record. Qed.
Lemma modifies_bc_refl st : modifies_bc st st. Proof. unfold modifies_bc. by_record. Qed.
Lemma modifies_geom_refl st : modifies_geom st st. Proof. unfold modifies_geom. by_record. Qed.
Lemma modifies_loads_refl st : modifies_loads st st. Proof. unfold modifies_loads. by_record. Qed.
Lemma modifies_wing_refl st : modifies_wing st st. Proof. unfold modifies_wing. by_record. Qed.

Lemma modifies_ref_trans s1 s2 s3 : modifies_ref s1 s2 -> modifies_ref s2 s3 -> modifies_ref s1 s3.
Proof. unfold modifies_ref. intros H1 H2. rewrite H2 at 1. rewrite H1 at 1. reflexivity. Qed.
Lemma modifies_bc_trans s1 s2 s3 : modifies_bc s1 s2 -> modifies_bc s2 s3 -> modifies_bc s1 s3.
Proof. unfold modifies_bc. intros H1 H2. rewrite H2 at 1. rewrite H1 at 1. reflexivity. Qed.
Lemma modifies_geom_trans s1 s2 s3 : modifies_geom s1 s2 -> modifies_geom s2 s3 -> modifies_geom s1 s3.
Proof. unfold modifies_geom. intros H1 H2. rewrite H2 at 1. rewrite H1 at 1. reflexivity. Qed.
Lemma modifies_loads_trans s1 s2 s3 : modifies_loads s1 s2 -> modifies_loads s2 s3 -> modifies_loads s1 s3.
Proof. unfold modifies_loads. intros H1 H2. rewrite H2 at 1. rewrite H1 at 1. reflexivity. Qed.
Lemma modifies_wing_trans s1 s2 s3 : modifies_wing s1 s2 -> modifies_wing s2 s3 -> modifies_wing s1 s3.
Proof. unfold modifies_wing. intros H1 H2. rewrite H2 at 1. rewrite H1 at 1. reflexivity. Qed.

(** A guarded assignment stays within a footprint that its body stays within. *)
Lemma when_rel (P : State -> State -> Prop) c body st st' :
  P st st -> (body = Ok st' -> P st st') -> when c body st = Ok st' -> P st st'.
Proof. unfold when. destruct c; intros Hr Hb H; [auto | injection H as <-; exact Hr]. Qed.

Lemma frame_ref {T} (f : State -> T) st st' :
  (forall p t v m d ma s, f (with_ref p t v m d ma s) = f s) ->
  modifies_ref st st' -> f st' = f st.
Proof. intros Hf H. rewrite H. apply Hf. Qed.

Lemma frame_bc {T} (f : State -> T) st st' :
  (forall n w s, f (with_bc n w s) = f s) -> modifies_bc st st' -> f st' = f st.
Proof. intros Hf H. rewrite H. apply Hf. Qed.

Lemma frame_geom {T} (f : State -> T) st st' :
  (forall a ar l o p d li si s, f (with_geom a ar l o p d li si s) = f s) ->
  modifies_geom st st' -> f st' = f st.
Proof. intros Hf H. rewrite H. apply Hf. Qed.

Lemma frame_loads {T} (f : State -> T) st st' :
  (forall ft fi fv m s, f (with_loads ft fi fv m s) = f s) ->
  modifies_loads st st' -> f st' = f st.
Proof. intros Hf H. rewrite H. apply Hf. Qed.

Lemma frame_wing {T} (f : State -> T) st st' :
  (forall u l s, f (with_wing u l s) = f s) -> modifies_wing st st' -> f st' = f st.
Proof. intros Hf H. rewrite H. apply Hf. Qed.

(** Closes [P s0 sn] from hypotheses [P s0 s1], [P s1 s2], ... *)
Ltac chain trans refl :=
  repeat (eapply trans; [ eassumption | ]); apply refl.

(** Discharges the guarded assignments of a scanned line one by one. *)
Ltac whens refl unf :=
  repeat match goal with
  | H : when _ _ ?s = Ok ?s' |- _ =>
    apply (when_rel _ _ _ _ _ (refl s)) in H;
    [ | let Hb := fresh "Hb" in intros Hb; res_inv; subst; unf; by_record ]
  end.

(** *** The reference-condition reader *)

Lemma scanRefLine_modifies st line st' :
  scanRefLine st line = Ok st' -> modifies_ref st st'.
Proof.
  unfold scanRefLine. intros H. res_inv.
  whens modifies_ref_refl ltac:(unfold modifies_ref).
  chain modifies_ref_trans modifies_ref_refl.
Qed.

Lemma deriveRefVals_modifies st st' :
  deriveRefVals st = Ok st' -> modifies_ref st st'.
Proof.
  unfold deriveRefVals. intros H. res_inv. subst st'.
  unfold modifies_ref, sumSquares. by_record.
Qed.

Lemma ReadRefVals_modifies fs st st' :
  ReadRefVals fs st = Ok st' -> modifies_ref st st'.
Proof.
  unfold ReadRefVals. intros H. res_inv.
  eapply modifies_ref_trans; [ | eapply deriveRefVals_modifies; eassumption ].
  eapply (forM_rel scanRefLine modifies_ref); eauto using modifies_ref_refl, modifies_ref_trans, scanRefLine_modifies.
Qed.

(** *** The boundary-condition reader *)

Lemma scanNumBounds_modifies lines st st' :
  scanNumBounds lines st = Ok st' -> modifies_bc st st'.
Proof.
  induction lines as [|line rest IH]; simpl; intros H.
  - injection H as <-. apply modifies_bc_refl.
  - destruct (keyed3 "mbcons" line); [ | auto ].
    res_inv. subst st'. unfold modifies_bc. by_record.
Qed.

Lemma noSlipStep_modifies lines acc line acc' :
  noSlipStep lines acc line = Ok acc' -> modifies_bc (snd acc) (snd acc').
Proof.
  destruct acc as [i st]. unfold noSlipStep.
  destruct (py_in noSlipMarker line); intros H.
  - res_inv. subst acc'. simpl. unfold modifies_bc. by_record.
  - injection H as <-. apply modifies_bc_refl.
Qed.

Lemma ReadBcInfos_modifies fs st st' :
  ReadBcInfos fs st = Ok st' -> modifies_bc st st'.
Proof.
  unfold ReadBcInfos. intros H. res_inv. subst st'.
  eapply modifies_bc_trans; [ eapply scanNumBounds_modifies; eassumption | ].
  change a0 with (snd (0, a0)).
  eapply (forM_rel (noSlipStep a) (fun x y => modifies_bc (snd x) (snd y)));
    eauto using modifies_bc_refl, modifies_bc_trans, noSlipStep_modifies.
Qed.

(** *** The geometry reader *)

Lemma setPlane_modifies plane st : modifies_geom st (setPlane plane st).
Proof. unfold modifies_geom, setPlane. destruct (String.eqb plane "xy"); by_record. Qed.

Lemma scanGeomLine_modifies st line st' :
  scanGeomLine st line = Ok st' -> modifies_geom st st'.
Proof.
  unfold scanGeomLine. intros H. res_inv.
  repeat match goal with
  | H : when (py_in "plane" _) _ ?s = Ok ?s' |- _ =>
    apply (when_rel _ _ _ _ _ (modifies_geom_refl s)) in H;
    [ | let Hb := fresh "Hb" in intros Hb; res_inv; subst; apply setPlane_modifies ]
  end.
  whens modifies_geom_refl ltac:(unfold modifies_geom).
  chain modifies_geom_trans modifies_geom_refl.
Qed.

Lemma ReadRefGeomVals_modifies fs st st' :
  ReadRefGeomVals fs st = Ok st' -> modifies_geom st st'.
Proof.
  unfold ReadRefGeomVals. intros H. res_inv.
  eapply (forM_rel scanGeomLine modifies_geom);
    eauto using modifies_geom_refl, modifies_geom_trans, scanGeomLine_modifies.
Qed.

(** *** The force reader *)

Lemma plusEq_modifies a k lines i j st st' :
  plusEq a k lines i j st = Ok st' -> modifies_loads st st'.
Proof.
  unfold plusEq. intros H. res_inv. subst st'. unfold modifies_loads.
  destruct a, k; by_record.
Qed.

Lemma addBlock_modifies lines blockIndex st st' :
  addBlock lines blockIndex st = Ok st' -> modifies_loads st st'.
Proof.
  unfold addBlock. intros H. res_inv.
  repeat match goal with
  | H : plusEq _ _ _ _ _ _ = Ok _ |- _ => apply plusEq_modifies in H
  end.
  chain modifies_loads_trans modifies_loads_refl.
Qed.

Lemma forcesStep_modifies lines staIndex st ibc st' :
  forcesStep lines staIndex st ibc = Ok st' -> modifies_loads st st'.
Proof.
  unfold forcesStep. destruct (py_mem _ _); intros H.
  - eapply addBlock_modifies; eassumption.
  - injection H as <-. apply modifies_loads_refl.
Qed.

Lemma ReadForces_modifies fs st st' :
  ReadForces fs st = Ok st' -> modifies_loads st st'.
Proof.
  unfold ReadForces. intros H. res_inv.
  eapply (forM_rel (forcesStep a _) modifies_loads);
    eauto using modifies_loads_refl, modifies_loads_trans, forcesStep_modifies.
Qed.

(** *** The wing finder *)

Lemma findWingStep_modifies acc line acc' :
  findWingStep acc line = Ok acc' -> modifies_wing (snd acc) (snd acc').
Proof.
  destruct acc as [[u l] st]. unfold findWingStep. intros H.
  apply bind_Ok in H. destruct H as ([u1 s1] & H1 & H).
  assert (M1 : modifies_wing st s1).
  { destruct (py_in "WINGUPPER" line).
    - res_inv. subst s1. unfold modifies_wing. by_record.
    - injection H1 as _ <-. apply modifies_wing_refl. }
  destruct (py_in "WINGLOWER" line).
  - res_inv. subst acc'. simpl. eapply modifies_wing_trans; [ exact M1 | ].
    unfold modifies_wing. by_record.
  - injection H as <-. exact M1.
Qed.

Lemma FindWing_modifies fs st found st' :
  FindWing fs st = Ok (found, st') -> modifies_wing st st'.
Proof.
  unfold FindWing. intros H.
  apply bind_Ok in H. destruct H as (lines & _ & H).
  apply bind_Ok in H. destruct H as ([[u l] s1] & H1 & H).
  assert (M : modifies_wing st s1).
  { change st with (snd (false, @None bool, st)). change s1 with (snd (u, l, s1)).
    eapply (forM_rel findWingStep (fun x y => modifies_wing (snd x) (snd y)));
      eauto using modifies_wing_refl, modifies_wing_trans, findWingStep_modifies. }
  destruct u; [ destruct l; [ | discriminate ] | ]; injection H as _ <-; exact M.
Qed.

(** *** The pass *)

Lemma Process_steps fs st st' :
  Process fs st = Ok st' ->
  exists s1 s2 s3,
    ReadRefVals fs st = Ok s1 /\ ReadBcInfos fs s1 = Ok s2 /\
    ReadRefGeomVals fs s2 = Ok s3 /\ ReadForces fs s3 = Ok st'.
Proof. unfold Process. intros H. res_inv. eauto 8. Qed.
End Footprints.

(** ** Force and moment accumulation *)

Section Forces.
Context {PF : PyFloat}.

Lemma forcesLoop_filter lines staIndex l st :
  forM (forcesStep lines staIndex) l st =
  addBlocks lines staIndex
    (List.filter (fun ibc => py_mem (ibc + 1) (noSlipWalls st)) l) st.
Proof.
  unfold addBlocks. revert st.
  induction l as [|ibc l IH]; intros st; [ reflexivity | ].
  cbn [forM List.filter].
  assert (Hstep : forcesStep lines staIndex st ibc =
                  if py_mem (ibc + 1) (noSlipWalls st)
                  then addBlock lines (staIndex + ibc * 23) st else Ok st)
    by reflexivity.
  rewrite Hstep. clear Hstep.
  destruct (py_mem (ibc + 1) (noSlipWalls st)) eqn:Hm.
  - cbn [forM].
    destruct (addBlock lines (staIndex + ibc * 23) st) as [st1| |] eqn:Hb;
      [ | reflexivity.. ].
    cbn. rewrite IH.
    rewrite (frame_loads noSlipWalls st st1);
      [ reflexivity | reflexivity | eapply addBlock_modifies; eassumption ].
  - cbn. apply IH.
Qed.

Lemma range_bounds n x : In x (range n) -> 0 <= x < n.
Proof.
  unfold range. rewrite in_map_iff. intros (k & <- & Hk).
  apply in_seq in Hk. lia.
Qed.

Lemma contributing_nil st :
  (forall i, 1 <= i <= numBounds st -> py_mem i (noSlipWalls st) = false) ->
  contributing st = [].
Proof.
  intros H. unfold contributing.
  assert (Hr : forall x, In x (range (numBounds st)) -> 0 <= x < numBounds st)
    by (intros x; apply range_bounds).
  induction (range (numBounds st)) as [|x l IH]; [ reflexivity | ].
  simpl. rewrite H by (specialize (Hr x (or_introl eq_refl)); lia).
  apply IH. intros y Hy. apply Hr. right. exact Hy.
Qed.

Lemma modifies_loads_back s s' :
  modifies_loads s s' ->
  s = with_loads (force_tol s) (force_inv s) (force_vis s) (moment s) s'.
Proof. intros H. rewrite H. by_record. Qed.

(** Before the force reader runs in a first pass, nothing has touched the
    accumulators. *)
Lemma loads_before_ReadForces fs name s1 s2 s3 :
  ReadRefVals fs (initial name) = Ok s1 -> ReadBcInfos fs s1 = Ok s2 ->
  ReadRefGeomVals fs s2 = Ok s3 ->
  force_tol s3 = vzero /\ force_inv s3 = vzero /\ force_vis s3 = vzero /\ moment s3 = vzero.
Proof.
  intros H1 H2 H3.
  apply ReadRefVals_modifies in H1. apply ReadBcInfos_modifies in H2.
  apply ReadRefGeomVals_modifies in H3.
  repeat split.
  - rewrite (frame_geom force_tol _ _ ltac:(reflexivity) H3),
            (frame_bc force_tol _ _ ltac:(reflexivity) H2),
            (frame_ref force_tol _ _ ltac:(reflexivity) H1). reflexivity.
  - rewrite (frame_geom force_inv _ _ ltac:(reflexivity) H3),
            (frame_bc force_inv _ _ ltac:(reflexivity) H2),
            (frame_ref force_inv _ _ ltac:(reflexivity) H1). reflexivity.
  - rewrite (frame_geom force_vis _ _ ltac:(reflexivity) H3),
            (frame_bc force_vis _ _ ltac:(reflexivity) H2),
            (frame_ref force_vis _ _ ltac:(reflexivity) H1). reflexivity.
  - rewrite (frame_geom moment _ _ ltac:(reflexivity) H3),
            (frame_bc moment _ _ ltac:(reflexivity) H2),
            (frame_ref moment _ _ ltac:(reflexivity) H1). reflexivity.
Qed.

(** The loads a first pass leaves are those of the contributing blocks,
    added up from zero. *)
Lemma first_pass_loads fs name st' :
  Process fs (initial name) = Ok st' ->
  exists lines,
    readlines fs (info1FileName st') = Ok lines /\
    addBlocks lines (len lines - 23 * numBounds st' + 1) (contributing st')
              (with_loads vzero vzero vzero vzero st') = Ok st'.
Proof.
  intros H. apply Process_steps in H. destruct H as (s1 & s2 & s3 & H1 & H2 & H3 & H4).
  destruct (loads_before_ReadForces _ _ _ _ _ H1 H2 H3) as (Z1 & Z2 & Z3 & Z4).
  pose proof (ReadForces_modifies _ _ _ H4) as M.
  assert (E3 : s3 = with_loads vzero vzero vzero vzero st').
  { rewrite <- Z1 at 1. rewrite <- Z2 at 1. rewrite <- Z3 at 1. rewrite <- Z4.
    apply modifies_loads_back. exact M. }
  unfold ReadForces in H4. res_inv. exists a. split.
  - rewrite (frame_loads info1FileName _ _ ltac:(reflexivity) M). exact Ha.
  - rewrite <- E3. rewrite forcesLoop_filter in H4. unfold contributing.
    rewrite (frame_loads numBounds _ _ ltac:(reflexivity) M),
            (frame_loads noSlipWalls _ _ ltac:(reflexivity) M). exact H4.
Qed.

(** C2. After a first extraction pass the four accumulated vectors are what
    the twelve additions of a block, run from all-zero vectors over exactly
    the blocks of the boundaries 1..numBounds that are in the no-slip list
    (in ascending order), leave; when none of these boundaries is in the
    list, every component of the four vectors is 0.0. *)
Theorem ReadForces_noslip_only fs name st' :
  Process fs (initial name) = Ok st' ->
  (exists lines,
      readlines fs (info1FileName st') = Ok lines /\
      addBlocks lines (len lines - 23 * numBounds st' + 1) (contributing st')
                (with_loads vzero vzero vzero vzero st') = Ok st') /\
  ((forall i, 1 <= i <= numBounds st' -> py_mem i (noSlipWalls st') = false) ->
   force_tol st' = vzero /\ force_inv st' = vzero /\
   force_vis st' = vzero /\ moment st' = vzero).
Proof.
  intros H. pose proof (first_pass_loads _ _ _ H) as Run.
  split; [ exact Run | ].
  intros Hnone. destruct Run as (lines & _ & Hrun).
  rewrite (contributing_nil _ Hnone) in Hrun.
  injection Hrun as Hrun. rewrite <- Hrun. auto.
Qed.
End Forces.

(** ** Axis assignment and the symmetry-plane attributes *)

Section Axes.
Context {PF : PyFloat}.

Lemma setPlane_axes plane st : axes (setPlane plane st) = axesOfToken plane.
Proof. unfold setPlane, axesOfToken. destruct (String.eqb plane "xy"); reflexivity. Qed.

Lemma scanGeomLine_axes st line st' :
  scanGeomLine st line = Ok st' ->
  axes st' = match planeToken line with
             | Some plane => axesOfToken plane
             | None => axes st
             end.
Proof.
  unfold scanGeomLine, planeToken. intros H. res_inv.
  assert (Hkeep : axes a4 = axes st).
  { repeat match goal with
    | H : when (py_in ?k _) _ ?s = Ok ?s' |- _ =>
      lazymatch k with
      | "plane" => fail
      | _ => apply (when_rel (fun x y => axes y = axes x) _ _ _ _ eq_refl) in H;
             [ | let Hb := fresh "Hb" in intros Hb; res_inv; subst; reflexivity ]
      end
    end.
    congruence. }
  unfold when in H. destruct (py_in "plane" line).
  - res_inv. subst st'. rewrite Ha5. apply setPlane_axes.
  - injection H as <-. exact Hkeep.
Qed.

Lemma forM_scanGeomLine_axes lines st st' :
  forM scanGeomLine lines st = Ok st' ->
  axes st' = match last (omap planeToken lines) with
             | Some plane => axesOfToken plane
             | None => axes st
             end.
Proof.
  revert st. induction lines as [|line rest IH]; intros st H.
  - injection H as <-. reflexivity.
  - cbn [forM] in H. res_inv. apply scanGeomLine_axes in Ha. apply IH in H.
    rewrite H. cbn [omap list_omap].
    destruct (planeToken line) as [plane|].
    + rewrite last_cons. destruct (last (omap planeToken rest)); [ reflexivity | exact Ha ].
    + destruct (last (omap planeToken rest)); [ reflexivity | exact Ha ].
Qed.

(** The geometry file is chosen by the file names alone. *)
Lemma geomLines_names fs st st' :
  logFileName st' = logFileName st -> infinFileName st' = infinFileName st ->
  infoutFileName st' = infoutFileName st -> geomLines fs st' = geomLines fs st.
Proof. unfold geomLines, IsClDriverCase. intros -> -> ->. reflexivity. Qed.

Context {PM : PyMath PF}.

(** With the constructor's indices a coefficient getter raises
    [IndexError] at its first item access. *)
Lemma GetCoeff_unassigned st :
  axes st = (-99, -99, -99) ->
  GetCoeffLift st = Raise IndexError /\ GetCoeffDrag st = Raise IndexError.
Proof.
  unfold axes. intros H. injection H as Hd Hl Hs.
  unfold GetCoeffLift, GetCoeffDrag, liftOf, dragOf. rewrite Hl. split; reflexivity.
Qed.

(** C4. After a first extraction pass the triple (indexDrag, indexLift,
    indexSide) is a function of the symmetry-plane token alone: (0,1,2)
    when the last [plane] line of the geometry file carries the token
    [xy], (0,2,1) when it carries any other token, and the constructor's
    (-99,-99,-99) when the file has no such line; and whenever a coefficient
    getter returns a value, the triple is (0,1,2) or (0,2,1). *)
Theorem axes_from_plane_token fs name st' :
  Process fs (initial name) = Ok st' ->
  (exists lines,
      geomLines fs (initial name) = Ok lines /\
      axes st' = match last (omap planeToken lines) with
                 | Some plane => axesOfToken plane
                 | None => (-99, -99, -99)
                 end) /\
  (forall c, GetCoeffLift st' = Ok c \/ GetCoeffDrag st' = Ok c ->
             axes st' = (0, 1, 2) \/ axes st' = (0, 2, 1)).
Proof.
  intros H. apply Process_steps in H. destruct H as (s1 & s2 & s3 & H1 & H2 & H3 & H4).
  pose proof (ReadRefVals_modifies _ _ _ H1) as M1.
  pose proof (ReadBcInfos_modifies _ _ _ H2) as M2.
  pose proof (ReadForces_modifies _ _ _ H4) as M4.
  assert (Hax : exists lines,
      geomLines fs (initial name) = Ok lines /\
      axes st' = match last (omap planeToken lines) with
                 | Some plane => axesOfToken plane
                 | None => (-99, -99, -99)
                 end).
  { unfold ReadRefGeomVals in H3. res_inv. exists a. split.
    - rewrite <- Ha. symmetry. apply geomLines_names.
      + rewrite (frame_bc logFileName _ _ ltac:(reflexivity) M2).
        apply (frame_ref logFileName _ _ ltac:(reflexivity) M1).
      + rewrite (frame_bc infinFileName _ _ ltac:(reflexivity) M2).
        apply (frame_ref infinFileName _ _ ltac:(reflexivity) M1).
      + rewrite (frame_bc infoutFileName _ _ ltac:(reflexivity) M2).
        apply (frame_ref infoutFileName _ _ ltac:(reflexivity) M1).
    - rewrite (frame_loads axes _ _ ltac:(reflexivity) M4).
      rewrite (forM_scanGeomLine_axes _ _ _ H3).
      rewrite (frame_bc axes _ _ ltac:(reflexivity) M2).
      rewrite (frame_ref axes _ _ ltac:(reflexivity) M1). reflexivity. }
  split; [ exact Hax | ].
  intros c Hc. destruct Hax as (lines & _ & Hax).
  destruct (last (omap planeToken lines)) as [plane|].
  - rewrite Hax. unfold axesOfToken. destruct (String.eqb plane "xy"); auto.
  - destruct (GetCoeff_unassigned _ Hax) as [Hl Hd].
    destruct Hc as [Hc | Hc]; congruence.
Qed.

(** *** The [symmPlane] attribute *)

Lemma reachable_Process fs name st st' :
  reachable fs name st -> Process fs st = Ok st' -> reachable fs name st'.
Proof.
  intros R H. apply Process_steps in H. destruct H as (s1 & s2 & s3 & H1 & H2 & H3 & H4).
  eauto using reachable.
Qed.

Lemma reachable_symmPlane fs name st : reachable fs name st -> symmPlane st = none.
Proof.
  induction 1 as [ | st st' _ IH H | st st' _ IH H | st st' _ IH H | st st' _ IH H
                   | st found st' _ IH H ].
  - reflexivity.
  - rewrite <- IH. apply (frame_ref symmPlane); [ reflexivity | ].
    eapply ReadRefVals_modifies; eassumption.
  - rewrite <- IH. apply (frame_bc symmPlane); [ reflexivity | ].
    eapply ReadBcInfos_modifies; eassumption.
  - rewrite <- IH. apply (frame_geom symmPlane); [ reflexivity | ].
    eapply ReadRefGeomVals_modifies; eassumption.
  - rewrite <- IH. apply (frame_loads symmPlane); [ reflexivity | ].
    eapply ReadForces_modifies; eassumption.
  - rewrite <- IH. apply (frame_wing symmPlane); [ reflexivity | ].
    eapply FindWing_modifies; eassumption.
Qed.

(** C10. The [plane] branch of the geometry reader assigns the attribute
    [SymmPlaneType] and the three axis indices and nothing else, and in
    every state a parser object can reach, whatever the files hold, the
    attribute [symmPlane] still has the constructor's value
    [SymmetryPlaneType.none]; in particular after the geometry reader. *)
Theorem symmPlane_never_assigned fs name st :
  reachable fs name st ->
  symmPlane st = none /\
  (forall st', ReadRefGeomVals fs st = Ok st' -> symmPlane st' = none) /\
  (forall plane,
      setPlane plane st =
      set_indexSide (snd (axesOfToken plane))
        (set_indexLift (snd (fst (axesOfToken plane)))
           (set_indexDrag (fst (fst (axesOfToken plane)))
              (set_SymmPlaneType (Some (planeOfToken plane)) st))) /\
      symmPlane (setPlane plane st) = none).
Proof.
  intros R. pose proof (reachable_symmPlane _ _ _ R) as Hs.
  split; [ exact Hs | split ].
  - intros st' H. eapply reachable_symmPlane. eapply reach_RefGeomVals; eassumption.
  - intros plane. unfold setPlane, axesOfToken, planeOfToken.
    destruct (String.eqb plane "xy"); (split; [ reflexivity | exact Hs ]).
Qed.
End Axes.

(** ** Binary64 arithmetic *)

(** What the proofs below need of IEEE arithmetic, from the specification
    of the primitive floats. *)
Section FloatFacts.
Local Open Scope float_scope.
Local Abbreviation SF := Prim2SF.










(** A rounded result has the sign it was given. *)
Lemma binary_round_aux_sign s m e l :
  match binary_round_aux prec emax s m e l with
  | S754_zero s' | S754_infinity s' | S754_finite s' _ _ => s' = s
  | S754_nan => True
  end.
Proof.
  unfold binary_round_aux.
  destruct (shr_fexp prec emax m e l) as [mrs' e'].
  destruct (shr_fexp prec emax _ e' loc_Exact) as [mrs'' e''].
  destruct (shr_m mrs''); [ reflexivity | | exact I ].
  destruct (e'' <=? emax - prec)%Z; reflexivity.
Qed.

(** A square is not the negative zero: adding it to 0.0 gives it back. *)
Lemma zero_add_square (x : float) : 0 + x * x = x * x.
Proof.
  apply Prim2SF_inj. rewrite FloatAxioms.add_spec, FloatAxioms.mul_spec.
  change (SF 0) with (S754_zero false).
  destruct (SF x) as [s|s| |s m e]; cbn [SF64mul SFmul].
  - destruct s; reflexivity.
  - destruct s; reflexivity.
  - reflexivity.
  - pose proof (binary_round_aux_sign (xorb s s) (Z.pos (m * m)) (e + e) loc_Exact) as S.
    destruct (binary_round_aux prec emax (xorb s s) (Z.pos (m * m)) (e + e) loc_Exact)
      as [s'|s'| |s' m' e']; try reflexivity.
    subst s'. destruct s; reflexivity.
Qed.

(** The two float operations that raise, when they return. *)
Lemma fdiv_Ok (x y z : float) :
  @fdiv binary64 x y = Ok z -> z = x / y /\ (y =? 0) = false.
Proof.
  change (@fdiv binary64 x y)
    with (if y =? 0 then Raise ZeroDivisionError else Ok (x / y)).
  destruct (y =? 0); [ discriminate | ]. intros H. injection H as <-. auto.
Qed.

Lemma fsqrt_Ok (x z : float) : @fsqrt binary64 x = Ok z -> z = sqrt x.
Proof.
  change (@fsqrt binary64 x)
    with (if PrimFloat.is_nan (sqrt x) && negb (PrimFloat.is_nan x)
          then Raise ValueError else Ok (sqrt x)).
  destruct (_ && _); [ discriminate | ]. intros H. injection H as <-. reflexivity.
Qed.
End FloatFacts.

(** ** The coefficient formulas *)

Section Coefficients.
Context {PF : PyFloat} {PM : PyMath PF}.




End Coefficients.

Section Coefficients64.
Local Open Scope float_scope.
Context {PM : PyMath binary64}.





End Coefficients64.

(** ** The derived reference values *)

Section Derived.
Context {PF : PyFloat}.

Lemma scanRefLine_refVmag (st : State) line st' :
  scanRefLine st line = Ok st' -> refVmag st' = refVmag st.
Proof.
  unfold scanRefLine. intros H. res_inv.
  repeat match goal with
  | H : when _ _ ?s = Ok ?s' |- _ =>
    apply (when_rel (fun x y => refVmag y = refVmag x) _ _ _ _ eq_refl) in H;
    [ | let Hb := fresh "Hb" in intros Hb; res_inv; subst; reflexivity ]
  end.
  congruence.
Qed.

Lemma sumSquares_sum (st : State) :
  sumSquares st =
  set_refVmag (fadd (fadd (fadd (refVmag st) (fmul (vx (refVels st)) (vx (refVels st))))
                          (fmul (vy (refVels st)) (vy (refVels st))))
                    (fmul (vz (refVels st)) (vz (refVels st)))) st.
Proof. destruct st. reflexivity. Qed.

(** What the statements after the scan have computed when they return. *)
Lemma deriveRefVals_Ok st st' :
  deriveRefVals st = Ok st' ->
  exists vmag q dens sound_speed mach,
    fsqrt (refVmag (sumSquares st)) = Ok vmag /\
    fdiv (refPres st) const_R = Ok q /\
    fdiv q (refTemp st) = Ok dens /\
    fsqrt (fmul (fmul const_gamma const_R) (refTemp st)) = Ok sound_speed /\
    fdiv vmag sound_speed = Ok mach /\
    st' = set_refMach mach (set_refDens dens (set_refVmag vmag (sumSquares st))).
Proof.
  unfold deriveRefVals. intros H.
  apply bind_Ok in H. destruct H as (vmag & H1 & H).
  apply bind_Ok in H. destruct H as (q & H2 & H).
  apply bind_Ok in H. destruct H as (dens & H3 & H).
  apply bind_Ok in H. destruct H as (c & H4 & H).
  apply bind_Ok in H. destruct H as (mach & H5 & H).
  injection H as <-. exists vmag, q, dens, c, mach. auto 10.
Qed.
End Derived.

Section Derived64.
Local Open Scope float_scope.

(** C5. In binary64, when the reference-condition reader of a new parser
    object returns, the density is pressure / 287.0 / temperature (two
    divisions, in this order), the velocity magnitude is
    sqrt(u*u + v*v + w*w) and the Mach number is
    magnitude / sqrt(1.4 * 287.0 * temperature), all over the pressure,
    the temperature and the velocity the object holds: density and Mach
    number are these functions of the parsed values and nothing else. *)
Theorem derived_reference_values fs name (st' : @State binary64) :
  ReadRefVals fs (initial name) = Ok st' ->
  refDens st' = refPres st' / const_R / refTemp st' /\
  refVmag st' = sqrt (vx (refVels st') * vx (refVels st')
                      + vy (refVels st') * vy (refVels st')
                      + vz (refVels st') * vz (refVels st')) /\
  refMach st' = refVmag st' / sqrt (const_gamma * const_R * refTemp st').
Proof.
  unfold ReadRefVals. intros H. apply try_exit_Ok in H.
  apply bind_Ok in H. destruct H as (lines & _ & H).
  apply bind_Ok in H. destruct H as (a & Hscan & H).
  assert (Hv : refVmag a = 0).
  { change 0 with (refVmag (@initial binary64 name)).
    eapply (forM_rel scanRefLine (fun x y => refVmag y = refVmag x));
      [ reflexivity | congruence | apply scanRefLine_refVmag | eassumption ]. }
  apply deriveRefVals_Ok in H.
  destruct H as (vmag & q & dens & c & mach & H1 & H2 & H3 & H4 & H5 & ->).
  rewrite sumSquares_sum in *.
  cbn [refPres refTemp refVels refVmag refDens refMach set_refVmag set_refDens set_refMach].
  cbn [refVmag set_refVmag] in H1.
  apply fsqrt_Ok in H1, H4. apply fdiv_Ok in H2, H3, H5.
  destruct H2 as [-> _], H3 as [-> _], H5 as [-> _]. subst vmag c.
  rewrite Hv.
  change (@fadd binary64) with PrimFloat.add. change (@fmul binary64) with PrimFloat.mul.
  rewrite zero_add_square. auto.
Qed.
End Derived64.

(** ** A second pass on the same object *)

Section SecondPass.
Context {PF : PyFloat}.

(** The boundary count the first loop leaves is read from the lines, or is
    the count the object already had. *)
Lemma scanNumBounds_same lines stA stA' stB stB' :
  scanNumBounds lines stA = Ok stA' -> scanNumBounds lines stB = Ok stB' ->
  numBounds stA' = numBounds stB' \/
  (numBounds stA' = numBounds stA /\ numBounds stB' = numBounds stB).
Proof.
  induction lines as [|line rest IH]; simpl; intros HA HB.
  - injection HA as <-. injection HB as <-. auto.
  - destruct (keyed3 "mbcons" line); [ | auto ].
    res_inv. subst. left. cbn. congruence.
Qed.

Lemma scanNumBounds_noSlipWalls lines st st' :
  scanNumBounds lines st = Ok st' -> noSlipWalls st' = noSlipWalls st.
Proof.
  induction lines as [|line rest IH]; simpl; intros H.
  - injection H as <-. reflexivity.
  - destruct (keyed3 "mbcons" line); [ | auto ].
    res_inv. subst. reflexivity.
Qed.

Lemma noSlipStep_numBounds lines acc line acc' :
  noSlipStep lines acc line = Ok acc' -> numBounds (snd acc') = numBounds (snd acc).
Proof.
  destruct acc as [i st]. unfold noSlipStep.
  destruct (py_in noSlipMarker line); intros H.
  - res_inv. subst acc'. reflexivity.
  - injection H as <-. reflexivity.
Qed.

(** The second loop appends to the list the object already has; what it
    appends is read from the lines alone. *)
Lemma noSlipLoop_appends lines l i stA accA stB accB :
  forM (noSlipStep lines) l (i, stA) = Ok accA ->
  forM (noSlipStep lines) l (i, stB) = Ok accB ->
  exists walls,
    noSlipWalls (snd accA) = (noSlipWalls stA ++ walls)%list /\
    noSlipWalls (snd accB) = (noSlipWalls stB ++ walls)%list.
Proof.
  revert i stA accA stB accB.
  induction l as [|line rest IH]; intros i stA accA stB accB HA HB.
  - injection HA as <-. injection HB as <-. exists []. rewrite !app_nil_r. auto.
  - cbn [forM] in HA, HB.
    apply bind_Ok in HA. destruct HA as ([iA sA] & HA1 & HA).
    apply bind_Ok in HB. destruct HB as ([iB sB] & HB1 & HB).
    unfold noSlipStep in HA1, HB1.
    destruct (py_in noSlipMarker line).
    + destruct (py_list_index line i lines) as [j| |]; try discriminate.
      cbn [mbind res_bind] in HA1, HB1.
      destruct (py_index lines (j - 2)) as [above| |]; try discriminate.
      cbn [mbind res_bind] in HA1, HB1.
      destruct (py_index (py_split above) 1) as [tok| |]; try discriminate.
      cbn [mbind res_bind] in HA1, HB1.
      destruct (int_of_string tok) as [n| |]; try discriminate.
      cbn [mbind res_bind] in HA1, HB1.
      injection HA1 as <- <-. injection HB1 as <- <-.
      destruct (IH _ _ _ _ _ HA HB) as (walls & WA & WB).
      exists (n :: walls). cbn [noSlipWalls set_noSlipWalls] in WA, WB.
      rewrite WA, WB, <- !app_assoc. auto.
    + injection HA1 as <- <-. injection HB1 as <- <-. eauto.
Qed.

Lemma py_mem_app x l1 l2 : py_mem x (l1 ++ l2) = py_mem x l1 || py_mem x l2.
Proof. unfold py_mem. apply existsb_app. Qed.

Lemma contributing_ext st st' :
  numBounds st' = numBounds st ->
  (forall x, py_mem x (noSlipWalls st') = py_mem x (noSlipWalls st)) ->
  contributing st' = contributing st.
Proof.
  unfold contributing. intros -> H.
  induction (range (numBounds st)) as [|x l IH]; [ reflexivity | ].
  cbn [List.filter]. rewrite H, IH. reflexivity.
Qed.

Lemma modifies_bc_with_loads st st' ft fi fv m :
  modifies_loads st st' ->
  force_tol st = ft -> force_inv st = fi -> force_vis st = fv -> moment st = m ->
  st = with_loads ft fi fv m st'.
Proof. intros M <- <- <- <-. apply modifies_loads_back. exact M. Qed.

(** C6, as the code has it. A second pass on the same object over the same
    files finds the same boundary count and the same contributing
    boundaries as the first, and leaves the no-slip list as the first
    pass's list followed by itself and the four accumulated vectors as the
    first pass's totals with the same blocks added once more. *)
Theorem Process_twice fs name st1 st2 :
  Process fs (initial name) = Ok st1 ->
  Process fs st1 = Ok st2 ->
  numBounds st2 = numBounds st1 /\
  noSlipWalls st2 = (noSlipWalls st1 ++ noSlipWalls st1)%list /\
  contributing st2 = contributing st1 /\
  exists lines,
    readlines fs (info1FileName st1) = Ok lines /\
    addBlocks lines (len lines - 23 * numBounds st1 + 1) (contributing st1)
      (with_loads vzero vzero vzero vzero st1) = Ok st1 /\
    addBlocks lines (len lines - 23 * numBounds st1 + 1) (contributing st1)
      (with_loads (force_tol st1) (force_inv st1) (force_vis st1) (moment st1) st2)
    = Ok st2.
Proof.
  intros P1 P2.
  destruct (first_pass_loads _ _ _ P1) as (lines & Hlines & Hfirst).
  apply Process_steps in P1. destruct P1 as (a1 & a2 & a3 & A1 & A2 & A3 & A4).
  apply Process_steps in P2. destruct P2 as (b1 & b2 & b3 & B1 & B2 & B3 & B4).
  pose proof (ReadRefVals_modifies _ _ _ A1) as MA1.
  pose proof (ReadBcInfos_modifies _ _ _ A2) as MA2.
  pose proof (ReadRefGeomVals_modifies _ _ _ A3) as MA3.
  pose proof (ReadForces_modifies _ _ _ A4) as MA4.
  pose proof (ReadRefVals_modifies _ _ _ B1) as MB1.
  pose proof (ReadBcInfos_modifies _ _ _ B2) as MB2.
  pose proof (ReadRefGeomVals_modifies _ _ _ B3) as MB3.
  pose proof (ReadForces_modifies _ _ _ B4) as MB4.
  (* the boundary infos after each pass are those its second reader left *)
  assert (N1 : numBounds st1 = numBounds a2).
  { rewrite (frame_loads numBounds _ _ ltac:(reflexivity) MA4).
    apply (frame_geom numBounds _ _ ltac:(reflexivity) MA3). }
  assert (W1 : noSlipWalls st1 = noSlipWalls a2).
  { rewrite (frame_loads noSlipWalls _ _ ltac:(reflexivity) MA4).
    apply (frame_geom noSlipWalls _ _ ltac:(reflexivity) MA3). }
  assert (N2 : numBounds st2 = numBounds b2).
  { rewrite (frame_loads numBounds _ _ ltac:(reflexivity) MB4).
    apply (frame_geom numBounds _ _ ltac:(reflexivity) MB3). }
  assert (W2 : noSlipWalls st2 = noSlipWalls b2).
  { rewrite (frame_loads noSlipWalls _ _ ltac:(reflexivity) MB4).
    apply (frame_geom noSlipWalls _ _ ltac:(reflexivity) MB3). }
  assert (Nb1 : numBounds b1 = numBounds st1)
    by apply (frame_ref numBounds _ _ ltac:(reflexivity) MB1).
  assert (Wb1 : noSlipWalls b1 = noSlipWalls st1)
    by apply (frame_ref noSlipWalls _ _ ltac:(reflexivity) MB1).
  assert (Wa1 : noSlipWalls a1 = [])
    by apply (frame_ref noSlipWalls _ _ ltac:(reflexivity) MA1).
  assert (Lb1 : logFileName b1 = logFileName a1).
  { rewrite (frame_ref logFileName _ _ ltac:(reflexivity) MB1).
    rewrite (frame_loads logFileName _ _ ltac:(reflexivity) MA4).
    rewrite (frame_geom logFileName _ _ ltac:(reflexivity) MA3).
    apply (frame_bc logFileName _ _ ltac:(reflexivity) MA2). }
  unfold ReadBcInfos in A2, B2. rewrite Lb1 in B2.
  apply try_exit_Ok in A2. apply try_exit_Ok in B2.
  apply bind_Ok in A2. destruct A2 as (log & Hlog & A2).
  apply bind_Ok in B2. destruct B2 as (log' & Hlog' & B2).
  assert (log' = log) by congruence. subst log'.
  apply bind_Ok in A2. destruct A2 as (sa & SA & A2).
  apply bind_Ok in B2. destruct B2 as (sb & SB & B2).
  apply bind_Ok in A2. destruct A2 as (accA & LA & A2). injection A2 as A2.
  apply bind_Ok in B2. destruct B2 as (accB & LB & B2). injection B2 as B2.
  assert (NA : numBounds a2 = numBounds sa).
  { subst a2. change sa with (snd (0, sa)).
    eapply (forM_rel (noSlipStep log) (fun x y => numBounds (snd y) = numBounds (snd x)));
      [ reflexivity | intros; congruence | apply noSlipStep_numBounds | eassumption ]. }
  assert (NB : numBounds b2 = numBounds sb).
  { subst b2. change sb with (snd (0, sb)).
    eapply (forM_rel (noSlipStep log) (fun x y => numBounds (snd y) = numBounds (snd x)));
      [ reflexivity | intros; congruence | apply noSlipStep_numBounds | eassumption ]. }
  assert (EN : numBounds st2 = numBounds st1).
  { rewrite N2, NB, N1, NA.
    destruct (scanNumBounds_same _ _ _ _ _ SA SB) as [E | [_ E]]; [ congruence | ].
    rewrite E, Nb1, N1, NA. reflexivity. }
  destruct (noSlipLoop_appends _ _ _ _ _ _ _ LA LB) as (walls & WA & WB).
  rewrite A2 in WA. rewrite B2 in WB.
  rewrite (scanNumBounds_noSlipWalls _ _ _ SA), Wa1 in WA. cbn [app] in WA.
  rewrite (scanNumBounds_noSlipWalls _ _ _ SB), Wb1 in WB.
  assert (EW : noSlipWalls st2 = (noSlipWalls st1 ++ noSlipWalls st1)%list).
  { rewrite W2, WB. rewrite W1, WA. reflexivity. }
  assert (EC : contributing st2 = contributing st1).
  { apply contributing_ext; [ exact EN | ].
    intros x. rewrite EW, py_mem_app. apply orb_diag. }
  split; [ exact EN | split; [ exact EW | split; [ exact EC | ] ] ].
  exists lines. split; [ exact Hlines | split; [ exact Hfirst | ] ].
  assert (E3 : b3 = with_loads (force_tol st1) (force_inv st1) (force_vis st1)
                               (moment st1) st2).
  { apply modifies_bc_with_loads; [ exact MB4 | | | | ].
    - rewrite (frame_geom force_tol _ _ ltac:(reflexivity) MB3),
              (frame_bc force_tol _ _ ltac:(reflexivity) MB2).
      apply (frame_ref force_tol _ _ ltac:(reflexivity) MB1).
    - rewrite (frame_geom force_inv _ _ ltac:(reflexivity) MB3),
              (frame_bc force_inv _ _ ltac:(reflexivity) MB2).
      apply (frame_ref force_inv _ _ ltac:(reflexivity) MB1).
    - rewrite (frame_geom force_vis _ _ ltac:(reflexivity) MB3),
              (frame_bc force_vis _ _ ltac:(reflexivity) MB2).
      apply (frame_ref force_vis _ _ ltac:(reflexivity) MB1).
    - rewrite (frame_geom moment _ _ ltac:(reflexivity) MB3),
              (frame_bc moment _ _ ltac:(reflexivity) MB2).
      apply (frame_ref moment _ _ ltac:(reflexivity) MB1). }
  rewrite <- E3.
  unfold ReadForces in B4. apply try_exit_Ok in B4.
  apply bind_Ok in B4. destruct B4 as (lines' & Hlines' & B4).
  assert (I3 : info1FileName b3 = info1FileName st1).
  { rewrite (frame_geom info1FileName _ _ ltac:(reflexivity) MB3),
            (frame_bc info1FileName _ _ ltac:(reflexivity) MB2).
    apply (frame_ref info1FileName _ _ ltac:(reflexivity) MB1). }
  rewrite I3 in Hlines'. assert (lines' = lines) by congruence. subst lines'.
  rewrite forcesLoop_filter in B4.
  assert (N3 : numBounds b3 = numBounds st1).
  { rewrite <- EN. symmetry. apply (frame_loads numBounds _ _ ltac:(reflexivity) MB4). }
  assert (C3 : contributing b3 = contributing st1).
  { rewrite <- EC. symmetry. apply contributing_ext.
    - apply (frame_loads numBounds _ _ ltac:(reflexivity) MB4).
    - intros x. rewrite (frame_loads noSlipWalls _ _ ltac:(reflexivity) MB4). reflexivity. }
  unfold contributing in C3 at 1. rewrite N3 in B4. rewrite N3 in C3. rewrite C3 in B4.
  exact B4.
Qed.
End SecondPass.

(** ** The sample case, in binary64 *)

(** Closes an equation between closed terms: the two sides evaluate to the
    same value. *)
Ltac vm_refl :=
  lazymatch goal with |- @eq ?T _ ?b => exact_no_check (@eq_refl T b) end.

Lemma returned_Ok {A} (d : A) (r : res A) : is_Ok r = true -> r = Ok (returned d r).
Proof. destruct r; simpl; intros H; [ reflexivity | discriminate.. ]. Qed.

(** Splits a conjunction of closed facts and evaluates each. *)
Ltac conj_vm :=
  repeat match goal with |- _ /\ _ => split end;
  try vm_refl.

Section Binary64.
Import Sample.
Local Abbreviation start := (@initial binary64 "sample").
Local Abbreviation vec := (@Vec3 binary64).

Lemma once_run : Process fs start = Ok once.
Proof. apply returned_Ok. vm_refl. Qed.

Lemma twice_run : Process fs once = Ok twice.
Proof. apply returned_Ok. vm_refl. Qed.

(** C1. The constructor returns the object whatever [__Validate] found: its
    flag is dropped. For the sample directory without [mcfd.info1] the
    validation prints the path and returns False, the constructor returns
    the same object as for a complete directory, the three readers before
    the force reader run to their end, and only the force reader stops the
    interpreter, on the file it cannot open. *)
Theorem Validate_flag_dropped :
  (forall (PF : PyFloat) fs name, snd (CFDppParser fs name) = Ok (initial name)) /\
  Validate fs_no_report "sample" "sample/sample.log" "sample/mcfd.info1"
           "sample/infout1f.inp" "sample/infout1f.out"
    = (false, ["File not Found:sample/mcfd.info1"]) /\
  CFDppParser fs_no_report "sample"
    = (["File not Found:sample/mcfd.info1"], Ok start) /\
  is_Ok (s1 ← ReadRefVals fs_no_report start;
         s2 ← ReadBcInfos fs_no_report s1;
         ReadRefGeomVals fs_no_report s2) = true /\
  Process fs_no_report start = Exit1 (FileNotFoundError "sample/mcfd.info1").
Proof.
  split.
  - intros PF fs0 name. unfold CFDppParser.
    destruct (Validate _ _ _ _ _ _). reflexivity.
  - conj_vm.
Qed.

(** C6 fails on the sample case: after a second pass on the same object the
    no-slip list is [1; 1] instead of [1], and the total force and the
    moment are twice those of the first pass. *)
Lemma Process_not_idempotent :
  Process fs start = Ok once /\ Process fs once = Ok twice /\
  noSlipWalls once = [1] /\ noSlipWalls twice = [1; 1] /\
  noSlipWalls twice <> noSlipWalls once /\
  force_tol once = vec 10%float 0%float 2%float /\
  force_tol twice = vec 20%float 0%float 4%float /\
  moment once = vec 0%float 0%float 5%float /\
  moment twice = vec 0%float 0%float 10%float.
Proof.
  split; [ exact once_run | split; [ exact twice_run | ] ].
  conj_vm.
  intros H. vm_compute in H. discriminate H.
Qed.

(** C7. With no temperature line in the log, the temperature stays 0.0 and
    the density statement divides by it: the reader stops the interpreter
    on [ZeroDivisionError], and so does the pass. *)
Theorem missing_temperature_exits :
  existsb (keyed3 "aero_temp") log_no_temp = false /\
  ReadRefVals (files log_no_temp info1 inp) start = Exit1 ZeroDivisionError /\
  Process (files log_no_temp info1 inp) start = Exit1 ZeroDivisionError.
Proof. conj_vm. Qed.

(** C8. With the marker on the first line of the log, [lines[staIndex-2]]
    is [lines[-2]], the last line but one of the file: the reader returns
    and records boundary 7, read from there. *)
Theorem marker_on_first_line_reads_file_end :
  py_in noSlipMarker <$> py_index log_marker_first 0 = Ok true /\
  py_index log_marker_first (0 - 2) = Ok (ln "bc 7 farfield") /\
  noSlipWalls <$> ReadBcInfos (files log_marker_first info1 inp) start = Ok [7].
Proof. conj_vm. Qed.

(** C9. With three boundaries declared and a report of 46 lines (two
    blocks), the block region starts at line -22: the six lines of
    boundary 1 are [lines[-19]] to [lines[-14]], which Python takes from
    the end of the file. The reader returns, with the values of the second
    block as the loads of boundary 1. *)
Theorem short_report_reads_wrapped_lines :
  len info1_two_blocks = 46 /\
  numBounds <$> Process (files log_three info1_two_blocks inp) start = Ok 3 /\
  noSlipWalls <$> Process (files log_three info1_two_blocks inp) start = Ok [1] /\
  len info1_two_blocks - 23 * 3 + 1 = -22 /\
  py_index info1_two_blocks (-22 + 3) = Ok (ln "x force 1.0 1.0 1.0") /\
  force_tol <$> Process (files log_three info1_two_blocks inp) start
    = Ok (vec 1%float 1%float 1%float) /\
  moment <$> Process (files log_three info1_two_blocks inp) start
    = Ok (vec 1%float 1%float 1%float).
Proof. conj_vm. Qed.

(** *** Witnesses *)

Lemma once_no_wall_run : Process fs_no_wall start = Ok once_no_wall.
Proof. apply returned_Ok. vm_refl. Qed.

Lemma once_no_wall_none i :
  1 <= i <= numBounds once_no_wall -> py_mem i (noSlipWalls once_no_wall) = false.
Proof.
  intros _. assert (E : noSlipWalls once_no_wall = []) by vm_refl.
  rewrite E. reflexivity.
Qed.

Lemma ReadForces_noslip_only_witness :
  Process fs_no_wall start = Ok once_no_wall /\
  force_tol once_no_wall = vzero /\ force_inv once_no_wall = vzero /\
  force_vis once_no_wall = vzero /\ moment once_no_wall = vzero.
Proof.
  exact (conj once_no_wall_run
           (proj2 (ReadForces_noslip_only fs_no_wall "sample" once_no_wall
                     once_no_wall_run) once_no_wall_none)).
Defined.

Lemma Process_twice_witness :
  numBounds twice = numBounds once /\
  noSlipWalls twice = (noSlipWalls once ++ noSlipWalls once)%list.
Proof.
  exact (conj (proj1 (Process_twice fs "sample" once twice once_run twice_run))
              (proj1 (proj2 (Process_twice fs "sample" once twice once_run twice_run)))).
Defined.

Lemma symmPlane_never_assigned_witness :
  symmPlane once = none /\ SymmPlaneType once = Some xyPlane.
Proof.
  split.
  - exact (proj1 (symmPlane_never_assigned fs "sample" once
                    (reachable_Process fs "sample" start once
                       (reach_init fs "sample") once_run))).
  - vm_refl.
Defined.

(** The getters of the sample case run with the library [libm]. *)
#[local] Existing Instance libm.

Lemma axes_from_plane_token_witness :
  Process fs start = Ok once /\
  geomLines fs start = Ok inp /\
  last (omap planeToken inp) = Some "xy" /\
  axes once = axesOfToken "xy".
Proof.
  destruct (axes_from_plane_token (PM := libm) fs "sample" once once_run)
    as ((lines & Hl & Ha) & _).
  assert (Hg : geomLines fs start = Ok inp) by vm_refl.
  assert (lines = inp) by congruence. subst lines.
  assert (Ht : last (omap planeToken inp) = Some "xy") by vm_refl.
  rewrite Ht in Ha. exact (conj once_run (conj Hg (conj Ht Ha))).
Defined.




Lemma ref_once_run : ReadRefVals fs start = Ok ref_once.
Proof. apply returned_Ok. vm_refl. Qed.

Lemma ref_dens_run : ReadRefVals (files log_dens info1 inp) start = Ok ref_dens.
Proof. apply returned_Ok. vm_refl. Qed.

Lemma ref_tiny_run : ReadRefVals (files log_tiny info1 inp) start = Ok ref_tiny.
Proof. apply returned_Ok. vm_refl. Qed.

(** C5 (as stated). The density the reader computes is not
    pressure / (287.0 * temperature) with one division: for 90000.0 Pa at
    202.0 K the two differ in the last place, and for the smallest
    positive pressure at 0.001 K the reader's density is 0.0 while
    pressure / (287.0 * temperature) is not. *)
Lemma density_not_one_division :
  ReadRefVals (files log_dens info1 inp) start = Ok ref_dens /\
  refPres ref_dens = 90000%float /\ refTemp ref_dens = 202%float /\
  PrimFloat.eqb (refDens ref_dens)
                (refPres ref_dens / (const_R * refTemp ref_dens))%float = false /\
  ReadRefVals (files log_tiny info1 inp) start = Ok ref_tiny /\
  refPres ref_tiny = 0x1p-1074%float /\ refTemp ref_tiny = 0x1.0624dd2f1a9fcp-10%float /\
  refDens ref_tiny = 0%float /\
  PrimFloat.eqb (refPres ref_tiny / (const_R * refTemp ref_tiny))%float 0%float = false.
Proof.
  split; [ exact ref_dens_run | ]. do 3 (split; [ vm_refl | ]).
  split; [ exact ref_tiny_run | ]. conj_vm.
Qed.

Lemma derived_reference_values_witness :
  refDens ref_once = (refPres ref_once / const_R / refTemp ref_once)%float /\
  refVmag ref_once = PrimFloat.sqrt (vx (refVels ref_once) * vx (refVels ref_once)
                                     + vy (refVels ref_once) * vy (refVels ref_once)
                                     + vz (refVels ref_once) * vz (refVels ref_once))%float /\
  refMach ref_once
    = (refVmag ref_once / PrimFloat.sqrt (const_gamma * const_R * refTemp ref_once))%float.
Proof. exact (derived_reference_values fs "sample" ref_once ref_once_run). Defined.
End Binary64.

(** * Further properties of the code *)

(** ** Validation and missing files *)

Section MissingFiles.
Context {PF : PyFloat}.

(** X1. [__Validate] returns True exactly when the directory, the log, the
    report and at least one of the two geometry files exist. It prints
    nothing when it returns True and nothing when the directory itself is
    absent; otherwise it prints one line, for the first file it misses. *)
Theorem Validate_spec fs c l i a b :
  fst (Validate fs c l i a b) =
    path_exists fs c && path_exists fs l && path_exists fs i &&
    (path_exists fs a || path_exists fs b) /\
  (fst (Validate fs c l i a b) = true -> snd (Validate fs c l i a b) = []) /\
  (path_exists fs c = false -> snd (Validate fs c l i a b) = []) /\
  (path_exists fs c = true -> fst (Validate fs c l i a b) = false ->
   snd (Validate fs c l i a b) =
     if negb (path_exists fs l) then ["File not Found:" ++ l]
     else if negb (path_exists fs i) then ["File not Found:" ++ i]
     else ["File not Found:" ++ a ++ " or " ++ b]).
Proof.
  unfold Validate.
  destruct (path_exists fs c), (path_exists fs l), (path_exists fs i),
           (path_exists fs a), (path_exists fs b); cbn;
    repeat split; intros; try reflexivity; try discriminate.
Qed.

(** X2. Without the log file the pass stops the interpreter in its first
    reader, on the path of the log, whatever else the directory holds; the
    constructor has returned the object all the same. *)
Theorem Process_missing_log fs name :
  path_exists fs (name ++ "/" ++ name ++ ".log") = false ->
  snd (CFDppParser fs name) = Ok (initial name) /\
  Process fs (initial name) = Exit1 (FileNotFoundError (name ++ "/" ++ name ++ ".log")).
Proof.
  intros H. split.
  - unfold CFDppParser. destruct (Validate _ _ _ _ _ _). reflexivity.
  - unfold Process, ReadRefVals, readlines. unfold path_exists in H.
    change (logFileName (initial name)) with (name ++ "/" ++ name ++ ".log").
    destruct (lookup_path fs (name ++ "/" ++ name ++ ".log")); [ discriminate | reflexivity ].
Qed.

(** X3. The geometry reader opens one file only, chosen by the log: the
    output file when a line of the log holds [cldriver_controls], the input
    file otherwise. When that file is absent the reader stops the
    interpreter on its path, also when the other geometry file exists (the
    case [__Validate] accepts). *)
Theorem ReadRefGeomVals_one_file fs st log :
  readlines fs (logFileName st) = Ok log ->
  let chosen := if existsb (py_in "cldriver_controls") log
                then infoutFileName st else infinFileName st in
  geomLines fs st = readlines fs chosen /\
  (path_exists fs chosen = false ->
   ReadRefGeomVals fs st = Exit1 (FileNotFoundError chosen)).
Proof.
  intros Hlog chosen. split.
  - unfold geomLines, IsClDriverCase. rewrite Hlog. reflexivity.
  - intros H. unfold ReadRefGeomVals, geomLines, IsClDriverCase. rewrite Hlog.
    cbn [try_exit mbind res_bind]. fold chosen.
    unfold readlines. unfold path_exists in H.
    destruct (lookup_path fs chosen); [ discriminate | reflexivity ].
Qed.

(** X4. A pass that returns has changed neither the five file names nor
    [symmPlane], [div_moment], [xCenterOfPressure], [idUpper] and
    [idLower]. *)
Theorem Process_keeps fs st st' :
  Process fs st = Ok st' ->
  (caseName st', logFileName st', info1FileName st', infinFileName st', infoutFileName st')
    = (caseName st, logFileName st, info1FileName st, infinFileName st, infoutFileName st) /\
  symmPlane st' = symmPlane st /\
  div_moment st' = div_moment st /\ xCenterOfPressure st' = xCenterOfPressure st /\
  idUpper st' = idUpper st /\ idLower st' = idLower st.
Proof.
  intros H. apply Process_steps in H. destruct H as (s1 & s2 & s3 & H1 & H2 & H3 & H4).
  apply ReadRefVals_modifies in H1. apply ReadBcInfos_modifies in H2.
  apply ReadRefGeomVals_modifies in H3. apply ReadForces_modifies in H4.
  assert (K : forall {T} (f : State -> T),
             (forall p t v m d ma s, f (with_ref p t v m d ma s) = f s) ->
             (forall n w s, f (with_bc n w s) = f s) ->
             (forall a ar l o p d li si s, f (with_geom a ar l o p d li si s) = f s) ->
             (forall ft fi fv m s, f (with_loads ft fi fv m s) = f s) ->
             f st' = f st).
  { intros T f F1 F2 F3 F4.
    rewrite (frame_loads f _ _ F4 H4), (frame_geom f _ _ F3 H3),
            (frame_bc f _ _ F2 H2). apply (frame_ref f _ _ F1 H1). }
  repeat split.
  - apply (K _ (fun s => (caseName s, logFileName s, info1FileName s,
                          infinFileName s, infoutFileName s))); reflexivity.
  - apply (K _ symmPlane); reflexivity.
  - apply (K _ div_moment); reflexivity.
  - apply (K _ xCenterOfPressure); reflexivity.
  - apply (K _ idUpper); reflexivity.
  - apply (K _ idLower); reflexivity.
Qed.
End MissingFiles.

(** ** [FindWing] *)

Section Wing.
Context {PF : PyFloat}.

Lemma findWingStep_flags u l st line u1 l1 s1 :
  findWingStep (u, l, st) line = Ok (u1, l1, s1) ->
  u1 = u || py_in "WINGUPPER" line /\
  l1 = if py_in "WINGLOWER" line then Some true else l.
Proof.
  unfold findWingStep.
  destruct (py_in "WINGUPPER" line), (py_in "WINGLOWER" line),
           (field line 0 ≫= int_of_string) as [n| |];
    cbn [mbind res_bind]; intros H; try discriminate;
    injection H as <- <- <-; rewrite ?orb_true_r, ?orb_false_r; auto.
Qed.

Lemma findWingLoop_flags lines u l st u' l' st' :
  forM findWingStep lines (u, l, st) = Ok (u', l', st') ->
  u' = u || existsb (py_in "WINGUPPER") lines /\
  l' = if existsb (py_in "WINGLOWER") lines then Some true else l.
Proof.
  revert u l st u' l' st'.
  induction lines as [|line rest IH]; intros u l st u' l' st' H.
  - injection H as <- <- <-. rewrite orb_false_r. auto.
  - cbn [forM] in H. apply bind_Ok in H. destruct H as ([[u1 l1] s1] & H1 & H).
    apply IH in H. destruct H as [-> ->].
    apply findWingStep_flags in H1. destruct H1 as [-> ->].
    cbn [existsb]. rewrite orb_assoc. split; [ reflexivity | ].
    destruct (py_in "WINGLOWER" line), (existsb (py_in "WINGLOWER") rest); reflexivity.
Qed.

(** X5. When its scan of the log returns, [FindWing] answers False if no
    line holds [WINGUPPER], True if some line holds [WINGUPPER] and some
    line holds [WINGLOWER], and raises [UnboundLocalError] if a line holds
    [WINGUPPER] and none holds [WINGLOWER]: the flag it reads at the end was
    never assigned. *)
Theorem FindWing_outcomes fs st lines acc :
  readlines fs (logFileName st) = Ok lines ->
  forM findWingStep lines (false, None, st) = Ok acc ->
  FindWing fs st =
    if existsb (py_in "WINGUPPER") lines
    then if existsb (py_in "WINGLOWER") lines
         then Ok (true, snd acc)
         else Raise UnboundLocalError
    else Ok (false, snd acc).
Proof.
  intros Hl Hloop. unfold FindWing. rewrite Hl. cbn [mbind res_bind].
  rewrite Hloop. cbn [mbind res_bind].
  destruct acc as [[u l] s]. apply findWingLoop_flags in Hloop.
  destruct Hloop as [-> ->]. cbn [orb snd].
  destruct (existsb (py_in "WINGUPPER") lines), (existsb (py_in "WINGLOWER") lines);
    reflexivity.
Qed.
End Wing.

(** ** What the scans of the log keep *)

Section ScanValues.
Context {PF : PyFloat}.

Lemma scanRefLine_values st line st' :
  scanRefLine st line = Ok st' ->
  refPres st' = default (refPres st) (refValue "aero_pres" line) /\
  refTemp st' = default (refTemp st) (refValue "aero_temp" line).
Proof.
  unfold scanRefLine, refValue. intros H.
  apply bind_Ok in H. destruct H as (s1 & H1 & H).
  apply bind_Ok in H. destruct H as (s2 & H2 & H).
  apply bind_Ok in H. destruct H as (s3 & H3 & H).
  apply bind_Ok in H. destruct H as (s4 & H4 & H).
  assert (K : refPres st' = refPres s2 /\ refTemp st' = refTemp s2).
  { apply (when_rel (fun x y => refPres y = refPres x /\ refTemp y = refTemp x)
                    _ _ _ _ (conj eq_refl eq_refl)) in H3;
      [ | intros Hb; res_inv; subst; split; reflexivity ].
    apply (when_rel (fun x y => refPres y = refPres x /\ refTemp y = refTemp x)
                    _ _ _ _ (conj eq_refl eq_refl)) in H4;
      [ | intros Hb; res_inv; subst; split; reflexivity ].
    apply (when_rel (fun x y => refPres y = refPres x /\ refTemp y = refTemp x)
                    _ _ _ _ (conj eq_refl eq_refl)) in H;
      [ | intros Hb; res_inv; subst; split; reflexivity ].
    destruct H3, H4, H. split; congruence. }
  destruct K as [-> ->]. unfold when in H1, H2.
  destruct (keyed3 "aero_pres" line), (keyed3 "aero_temp" line).
  - destruct (field line 2 ≫= float_of_string) as [v| |]; try discriminate.
    cbn [mbind res_bind] in H1, H2. injection H1 as <-. injection H2 as <-. auto.
  - destruct (field line 2 ≫= float_of_string) as [v| |]; try discriminate.
    cbn [mbind res_bind] in H1. injection H1 as <-. injection H2 as <-. auto.
  - destruct (field line 2 ≫= float_of_string) as [v| |]; try discriminate.
    cbn [mbind res_bind] in H2. injection H1 as <-. injection H2 as <-. auto.
  - injection H1 as <-. injection H2 as <-. auto.
Qed.

Lemma scanRefLines_values lines st st' :
  forM scanRefLine lines st = Ok st' ->
  refPres st' = default (refPres st) (last (omap (refValue "aero_pres") lines)) /\
  refTemp st' = default (refTemp st) (last (omap (refValue "aero_temp") lines)).
Proof.
  revert st. induction lines as [|line rest IH]; intros st H.
  - injection H as <-. auto.
  - cbn [forM] in H. res_inv. apply scanRefLine_values in Ha. destruct Ha as [Hp Ht].
    apply IH in H. destruct H as [-> ->]. cbn [omap list_omap].
    split.
    + destruct (refValue "aero_pres" line) as [v|]; cbn [default] in Hp.
      * rewrite last_cons. destruct (last (omap (refValue "aero_pres") rest));
          [ reflexivity | exact Hp ].
      * rewrite Hp. reflexivity.
    + destruct (refValue "aero_temp" line) as [v|]; cbn [default] in Ht.
      * rewrite last_cons. destruct (last (omap (refValue "aero_temp") rest));
          [ reflexivity | exact Ht ].
      * rewrite Ht. reflexivity.
Qed.

Lemma deriveRefVals_keeps st st' :
  deriveRefVals st = Ok st' -> refPres st' = refPres st /\ refTemp st' = refTemp st.
Proof. unfold deriveRefVals. intros H. res_inv. subst st'. split; reflexivity. Qed.

(** X6. When the reference-condition reader returns, the pressure of the
    object is the value of the last line of the log keyed [aero_pres] with
    three fields, and the pressure it had before when there is no such
    line (0.0 for a new object); likewise the temperature for [aero_temp]. *)
Theorem ReadRefVals_last_wins fs st st' :
  ReadRefVals fs st = Ok st' ->
  exists lines,
    readlines fs (logFileName st) = Ok lines /\
    refPres st' = default (refPres st) (last (omap (refValue "aero_pres") lines)) /\
    refTemp st' = default (refTemp st) (last (omap (refValue "aero_temp") lines)).
Proof.
  unfold ReadRefVals. intros H. apply try_exit_Ok in H.
  apply bind_Ok in H. destruct H as (lines & Hl & H).
  apply bind_Ok in H. destruct H as (s & Hs & H).
  exists lines. split; [ exact Hl | ].
  apply scanRefLines_values in Hs. apply deriveRefVals_keeps in H.
  destruct Hs as [Hp Ht], H as [-> ->]. auto.
Qed.

Lemma refValue_not_keyed key lines :
  existsb (keyed3 key) lines = false -> omap (refValue key) lines = [].
Proof.
  induction lines as [|line rest IH]; cbn [existsb omap list_omap]; [ reflexivity | ].
  intros H. apply orb_false_iff in H. destruct H as [H1 H2].
  unfold refValue at 1. rewrite H1. auto.
Qed.

(** *** The boundary count *)

Lemma scanNumBounds_find lines st st' :
  scanNumBounds lines st = Ok st' ->
  match List.find (keyed3 "mbcons") lines with
  | Some line => field line 2 ≫= int_of_string = Ok (numBounds st')
  | None => st' = st
  end.
Proof.
  induction lines as [|line rest IH]; cbn [scanNumBounds List.find]; intros H.
  - injection H as <-. reflexivity.
  - destruct (keyed3 "mbcons" line); [ | exact (IH H) ].
    destruct (field line 2 ≫= int_of_string) as [n| |]; try discriminate.
    cbn [mbind res_bind] in H. injection H as <-. reflexivity.
Qed.

(** X7. When the boundary-condition reader returns, the boundary count is
    the integer in the third field of the first line of the log keyed
    [mbcons] with three fields; later such lines are not read. Without
    such a line the count is the one the object had. *)
Theorem ReadBcInfos_first_count fs st st' :
  ReadBcInfos fs st = Ok st' ->
  exists lines,
    readlines fs (logFileName st) = Ok lines /\
    match List.find (keyed3 "mbcons") lines with
    | Some line => field line 2 ≫= int_of_string = Ok (numBounds st')
    | None => numBounds st' = numBounds st
    end.
Proof.
  unfold ReadBcInfos. intros H. apply try_exit_Ok in H.
  apply bind_Ok in H. destruct H as (lines & Hl & H).
  apply bind_Ok in H. destruct H as (s & Hs & H).
  apply bind_Ok in H. destruct H as (acc & Hloop & H). injection H as <-.
  exists lines. split; [ exact Hl | ].
  assert (N : numBounds (snd acc) = numBounds s).
  { change s with (snd (0, s)).
    eapply (forM_rel (noSlipStep lines) (fun x y => numBounds (snd y) = numBounds (snd x)));
      [ reflexivity | intros; congruence | apply noSlipStep_numBounds | eassumption ]. }
  apply scanNumBounds_find in Hs.
  destruct (List.find (keyed3 "mbcons") lines).
  - rewrite N. exact Hs.
  - rewrite N, Hs. reflexivity.
Qed.

(** *** The no-slip walls *)

Lemma index_from_skip x mid post s :
  Forall (fun y => String.eqb y x = false) mid ->
  index_from x (mid ++ x :: post) s = Ok (s + len mid).
Proof.
  revert s. induction mid as [|y mid IH]; intros s H; cbn [app index_from].
  - rewrite String.eqb_refl. f_equal. unfold len. cbn. lia.
  - inversion H as [|? ? Hy Hmid]; subst. rewrite Hy, IH by assumption.
    f_equal. unfold len. cbn [length]. lia.
Qed.

Lemma py_list_index_found x pre mid post :
  Forall (fun y => py_in noSlipMarker y = false) mid ->
  py_in noSlipMarker x = true ->
  py_list_index x (len pre) (pre ++ mid ++ x :: post) = Ok (len pre + len mid).
Proof.
  intros Hmid Hx. unfold py_list_index.
  assert (Hn : (len pre <? 0) = false) by (apply Z.ltb_ge; unfold len; lia).
  rewrite Hn. unfold len at 1. rewrite Nat2Z.id.
  rewrite drop_app_length. apply index_from_skip.
  eapply Forall_impl; [ exact Hmid | ].
  intros y Hy. cbn beta in Hy. destruct (String.eqb y x) eqn:E; [ | reflexivity ].
  apply String.eqb_eq in E. subst y. congruence.
Qed.

Lemma noSlipLoop_positions pre mid rest st acc :
  Forall (fun y => py_in noSlipMarker y = false) mid ->
  forM (noSlipStep (pre ++ mid ++ rest)) rest (len pre, st) = Ok acc ->
  exists walls,
    wallsFrom (pre ++ mid ++ rest) rest (len pre + len mid) = Ok walls /\
    noSlipWalls (snd acc) = (noSlipWalls st ++ walls)%list.
Proof.
  revert pre mid st acc. induction rest as [|line rest IH]; intros pre mid st acc Hmid H.
  - injection H as <-. exists []. split; [ reflexivity | symmetry; apply app_nil_r ].
  - cbn [forM] in H. apply bind_Ok in H. destruct H as ([i s] & Hstep & H).
    unfold noSlipStep in Hstep. cbn [wallsFrom].
    destruct (py_in noSlipMarker line) eqn:Hm.
    + rewrite (py_list_index_found line pre mid rest Hmid Hm) in Hstep.
      cbn [mbind res_bind] in Hstep. fold (wallAbove (pre ++ mid ++ line :: rest)
                                                     (len pre + len mid)) in Hstep.
      unfold wallAbove.
      destruct (py_index (pre ++ mid ++ line :: rest) (len pre + len mid - 2))
        as [above| |]; try discriminate.
      cbn [mbind res_bind] in Hstep |- *.
      destruct (py_index (py_split above) 1) as [tok| |]; try discriminate.
      cbn [mbind res_bind] in Hstep |- *.
      destruct (int_of_string tok) as [n| |]; try discriminate.
      cbn [mbind res_bind] in Hstep |- *. injection Hstep as <- <-.
      assert (E : (pre ++ mid ++ line :: rest = ((pre ++ mid) ++ [line]) ++ [] ++ rest)%list)
        by (rewrite <- !app_assoc; reflexivity).
      assert (L : len pre + len mid + 1 = len ((pre ++ mid) ++ [line]))
        by (unfold len; rewrite !length_app; cbn [length]; lia).
      rewrite E, L in H. apply IH in H; [ | constructor ].
      destruct H as (walls & Hw & Hn). rewrite <- E, <- L in Hw.
      replace (len pre + len mid + 1 + len (@nil string)) with (len pre + len mid + 1) in Hw
        by (unfold len; cbn [length]; lia).
      rewrite Hw. cbn [mbind res_bind]. exists (n :: walls). split; [ reflexivity | ].
      rewrite Hn. cbn [noSlipWalls set_noSlipWalls]. rewrite <- app_assoc. reflexivity.
    + injection Hstep as <- <-.
      assert (E : (pre ++ mid ++ line :: rest = pre ++ (mid ++ [line]) ++ rest)%list)
        by (rewrite <- !app_assoc; reflexivity).
      rewrite E in H. apply IH in H.
      * destruct H as (walls & Hw & Hn). rewrite <- E in Hw.
        replace (len pre + len (mid ++ [line])) with (len pre + len mid + 1) in Hw
          by (unfold len; rewrite length_app; cbn [length]; lia).
        eauto.
      * apply Forall_app. split; [ exact Hmid | ]. constructor; [ exact Hm | constructor ].
Qed.

(** X8. When the boundary-condition reader returns, what it has appended
    to the no-slip list is, for each line of the log that holds the marker,
    in order, the integer in the second field of the line two places above
    that very line: the search [lines.index(line, staIndex, len(lines))]
    always lands on the line of the current turn, also when marker lines
    have the same text. *)
Theorem ReadBcInfos_walls_by_position fs st st' :
  ReadBcInfos fs st = Ok st' ->
  exists lines walls,
    readlines fs (logFileName st) = Ok lines /\
    wallsFrom lines lines 0 = Ok walls /\
    noSlipWalls st' = (noSlipWalls st ++ walls)%list.
Proof.
  unfold ReadBcInfos. intros H. apply try_exit_Ok in H.
  apply bind_Ok in H. destruct H as (lines & Hl & H).
  apply bind_Ok in H. destruct H as (s & Hs & H).
  apply bind_Ok in H. destruct H as (acc & Hloop & H). injection H as <-.
  pose proof (noSlipLoop_positions [] [] lines s acc (List.Forall_nil _)) as P.
  cbn [app] in P. change (len (@nil string)) with 0 in P.
  destruct (P Hloop) as (walls & Hw & Hn).
  exists lines, walls. split; [ exact Hl | split; [ exact Hw | ] ].
  rewrite Hn, (scanNumBounds_noSlipWalls _ _ _ Hs). reflexivity.
Qed.
End ScanValues.

(** ** The reference conditions: what the reader needs *)

Section Temperature.
Context {PF : PyFloat}.
(** Division by [0.0] raises [ZeroDivisionError], as Python's does. *)
Hypothesis fdiv_zero : forall x : F, fdiv x f0_0 = Raise ZeroDivisionError.

(** X9. A new parser object whose log has no line keyed [aero_temp] with
    three fields never gets through the reference-condition reader: the
    reader stops the interpreter, and so does the pass, whatever the rest
    of the log and of the directory holds. When the scan and the square
    root of the velocity sum go through, the exception is the
    [ZeroDivisionError] of the density statement. *)
Theorem no_temperature_never_returns fs name lines :
  readlines fs (logFileName (initial name)) = Ok lines ->
  existsb (keyed3 "aero_temp") lines = false ->
  (exists e, ReadRefVals fs (initial name) = Exit1 e /\
             Process fs (initial name) = Exit1 e) /\
  (forall s v q,
     forM scanRefLine lines (initial name) = Ok s ->
     fsqrt (refVmag (sumSquares s)) = Ok v ->
     fdiv (refPres s) const_R = Ok q ->
     ReadRefVals fs (initial name) = Exit1 ZeroDivisionError).
Proof.
  intros Hl Hk.
  assert (T : forall s, forM scanRefLine lines (initial name) = Ok s -> refTemp s = f0_0).
  { intros s Hs. apply scanRefLines_values in Hs. destruct Hs as [_ Ht].
    rewrite (refValue_not_keyed _ _ Hk) in Ht. exact Ht. }
  split.
  - assert (K : exists e, ReadRefVals fs (initial name) = Exit1 e).
    { unfold ReadRefVals. rewrite Hl. cbn [mbind res_bind].
      destruct (forM scanRefLine lines (initial name)) as [s|e|e] eqn:Hs;
        cbn [mbind res_bind try_exit]; eauto.
      specialize (T s eq_refl). unfold deriveRefVals.
      destruct (fsqrt (refVmag (sumSquares s))) as [v|e|e];
        cbn [mbind res_bind try_exit]; eauto.
      change (refPres (set_refVmag v (sumSquares s))) with (refPres s).
      change (refTemp (set_refVmag v (sumSquares s))) with (refTemp s).
      destruct (fdiv (refPres s) const_R) as [q|e|e];
        cbn [mbind res_bind try_exit]; eauto.
      rewrite T, fdiv_zero. cbn [mbind res_bind try_exit]. eauto. }
    destruct K as [e K]. exists e. split; [ exact K | ].
    unfold Process. rewrite K. reflexivity.
  - intros s v q Hs Hv Hq. specialize (T s Hs).
    unfold ReadRefVals. rewrite Hl. cbn [mbind res_bind]. rewrite Hs.
    cbn [mbind res_bind]. unfold deriveRefVals. rewrite Hv. cbn [mbind res_bind].
    change (refPres (set_refVmag v (sumSquares s))) with (refPres s).
    change (refTemp (set_refVmag v (sumSquares s))) with (refTemp s).
    rewrite Hq. cbn [mbind res_bind]. rewrite T, fdiv_zero. reflexivity.
Qed.
End Temperature.

(** ** The getters before the geometry is read *)

Section Unassigned.
Context {PF : PyFloat} {PM : PyMath PF}.

Lemma vget_unassigned (f : vec3) : vget f (-99) = Raise IndexError.
Proof. reflexivity. Qed.

(** X13. With the indices the constructor assigns, which is how a pass
    leaves them when the geometry file has no [plane] line, [GetLDRatio],
    [GetCoeffMoment] and [GetCenterOfPressure] raise [IndexError]. *)
Theorem getters_unassigned st :
  axes st = (-99, -99, -99) ->
  GetLDRatio st = Raise IndexError /\
  GetCoeffMoment st = Raise IndexError /\
  GetCenterOfPressure st = Raise IndexError.
Proof.
  unfold axes. intros H. injection H as Hd Hl Hs.
  unfold GetLDRatio, GetCoeffMoment, GetCenterOfPressure, GetCoeffLift, liftOf.
  rewrite Hl, Hs. repeat split; reflexivity.
Qed.
End Unassigned.

(** ** The Tecplot macros *)

Lemma ends_nl_app (s t : string) : t <> EmptyString -> ends_nl (s ++ t) = ends_nl t.
Proof.
  intros Ht. induction s as [|c s IH]; [ reflexivity | ].
  cbn [String.append ends_nl]. rewrite IH.
  destruct (s ++ t) eqn:E; [ | reflexivity ].
  destruct s; [ | discriminate E ]. cbn in E. contradiction.
Qed.

Lemma append_nonempty (s t : string) : t <> EmptyString -> (s ++ t)%string <> EmptyString.
Proof. destruct s; [ trivial | discriminate ]. Qed.

Lemma ends_nl_suffix (s t : string) : ends_nl t = true -> ends_nl (s ++ t) = true.
Proof.
  intros H. rewrite ends_nl_app; [ exact H | ]. intros ->. discriminate H.
Qed.

Lemma ends_nl_map {B} (f : B -> string) (l : list B) :
  (forall x, ends_nl (f x) = true) -> forallb ends_nl (map f l) = true.
Proof.
  intros H. induction l as [|x l IH]; [ reflexivity | ].
  cbn [map forallb]. rewrite H. exact IH.
Qed.

(** A string built by appending ends as its last piece does. *)
Ltac nl_end := repeat first [ reflexivity | apply ends_nl_suffix ].

Lemma app_snoc_cons {B} (l : list B) x r : ((l ++ [x]) ++ r = l ++ x :: r)%list.
Proof. rewrite <- app_assoc. reflexivity. Qed.

Lemma prefix_app (p s : string) : String.prefix p (p ++ s) = true.
Proof.
  induction p as [|c p IH]; [ destruct s; reflexivity | ].
  cbn [String.append String.prefix]. destruct (ascii_dec c c); [ exact IH | contradiction ].
Qed.

Section TecplotFacts.
Context {A : Type} (str_level : A -> string).

(** X14. [WriteMcrOutputContour] raises [IndexError] exactly when the list
    of surface zones is empty, at [surfZones[0]], whatever its other
    arguments; otherwise it returns
    32 + numZones + len(surfZones) + len(levels) strings (numZones counted
    as 0 when negative). *)
Theorem WriteMcrOutputContour_result numZones surfZones varIndex
    (levels : list A) viewType outputFile :
  match surfZones with
  | [] =>
    WriteMcrOutputContour str_level numZones surfZones varIndex levels viewType outputFile
      = Raise IndexError
  | _ :: _ =>
    exists text,
      WriteMcrOutputContour str_level numZones surfZones varIndex levels viewType outputFile
        = Ok text /\
      length text = (32 + Z.to_nat numZones + length surfZones + length levels)%nat
  end.
Proof.
  destruct surfZones as [|z0 zs]; [ reflexivity | ].
  unfold WriteMcrOutputContour.
  change (py_index (z0 :: zs) 0) with (Ok z0). cbn [mbind res_bind].
  assert (L : exists zl, py_index (z0 :: zs) (-1) = Ok zl).
  { unfold py_index. change (-1 <? 0) with true. cbn iota.
    assert (E : (-1 + len (z0 :: zs) <? 0) = false)
      by (apply Z.ltb_ge; unfold len; cbn [length]; lia).
    rewrite E.
    destruct (nth_error (z0 :: zs) (Z.to_nat (-1 + len (z0 :: zs)))) as [zl|] eqn:N;
      [ eauto | ].
    apply nth_error_None in N. unfold len in N. cbn [length] in N. lia. }
  destruct L as [zl ->]. cbn [mbind res_bind].
  destruct (viewAngles viewType) as [[psi theta] al].
  eexists. split; [ reflexivity | ].
  rewrite !length_app, !length_map. unfold range. rewrite length_map, length_seq.
  cbn [length]. lia.
Qed.

(** X15. A view type that is none of the six the chain of tests names
    gives the same macro as ["+Z view"]: angles 0.0, 0.0, 0.0, and no
    error. *)
Theorem WriteMcrOutputContour_unknown_view numZones surfZones varIndex
    (levels : list A) viewType outputFile :
  ~ In viewType ["+X view"; "-X view"; "+Y view"; "-Y view"; "+Z view"; "-Z view"] ->
  WriteMcrOutputContour str_level numZones surfZones varIndex levels viewType outputFile
  = WriteMcrOutputContour str_level numZones surfZones varIndex levels "+Z view" outputFile.
Proof.
  intros H. unfold WriteMcrOutputContour.
  assert (E : viewAngles viewType = viewAngles "+Z view").
  { unfold viewAngles.
    repeat match goal with
    | |- context [String.eqb viewType ?v] =>
      destruct (String.eqb_spec viewType v) as [->|_];
      [ exfalso; apply H; cbn [In]; tauto | ]
    end.
    reflexivity. }
  rewrite E. reflexivity.
Qed.

(** X16. In the list [WriteMcrOutputContour] returns, every string ends
    with a line end except one, the [$!FIELDMAP] command, which is followed
    by 14 more strings: written out with [writelines], that command and the
    comment [## fit data to the view] share a line. *)
Theorem WriteMcrOutputContour_line_ends numZones surfZones varIndex
    (levels : list A) viewType outputFile text :
  WriteMcrOutputContour str_level numZones surfZones varIndex levels viewType outputFile
    = Ok text ->
  exists before fieldmap after,
    text = (before ++ fieldmap :: after)%list /\
    forallb ends_nl before = true /\
    String.prefix "$!FIELDMAP [" fieldmap = true /\ ends_nl fieldmap = false /\
    forallb ends_nl after = true /\ length after = 14%nat /\
    nth_error after 0 = Some ("## fit data to the view" ++ nl).
Proof.
  unfold WriteMcrOutputContour. intros H.
  destruct (py_index surfZones 0) as [z0| |]; try discriminate H.
  cbn [mbind res_bind] in H.
  destruct (py_index surfZones (-1)) as [zl| |]; try discriminate H.
  cbn [mbind res_bind] in H.
  destruct (viewAngles viewType) as [[psi theta] al].
  apply (f_equal (returned [])) in H. cbn [returned] in H. subst text.
  eexists _, _, _. split; [ apply app_snoc_cons | ].
  split; [ | split; [ apply prefix_app | split; [ | split; [ | split; reflexivity ] ] ] ].
  - rewrite !forallb_app. cbn [forallb].
    repeat (apply andb_true_intro; split); try reflexivity;
      try (apply ends_nl_map; intros); nl_end.
  - rewrite (ends_nl_app "$!FIELDMAP [") by (apply append_nonempty; discriminate).
    rewrite ends_nl_app by discriminate. reflexivity.
  - cbn [forallb]. repeat (apply andb_true_intro; split); try reflexivity; nl_end.
Qed.
End TecplotFacts.

Section DistributionFacts.
Context {S : Type} (str_section : S -> string).

(** X17. In [WriteMcrVarDistribution] the slice plane reaches the macro in
    one string only, the [SLICESURFACE] command; the position command after
    it names the coordinate Y whatever the plane, so a slice asked for on
    ["ZPLANES"] or ["XPLANES"] is still positioned by [Y = section]. *)
Theorem WriteMcrVarDistribution_slice_plane section zoneIndex varIndex outputFile :
  exists before after,
    length before = 7%nat /\ length after = 15%nat /\
    forall slicePlane,
      WriteMcrVarDistribution str_section section zoneIndex varIndex slicePlane outputFile
      = app before
          (("$!SLICEATTRIBUTES 1  SLICESURFACE =" ++ slicePlane ++ nl)
           :: ("$!SLICEATTRIBUTES 1  PRIMARYPOSITION{Y = " ++ str_section section ++ "}" ++ nl)
           :: after).
Proof.
  exists (firstn 7 (WriteMcrVarDistribution str_section section zoneIndex varIndex
                      "" outputFile)),
         (skipn 9 (WriteMcrVarDistribution str_section section zoneIndex varIndex
                     "" outputFile)).
  split; [ reflexivity | split; [ reflexivity | ] ].
  intros slicePlane. reflexivity.
Qed.
End DistributionFacts.

(** ** The wing boundaries *)

Section WingIds.
Context {PF : PyFloat}.

Lemma findWingStep_ids u l st line u1 l1 s1 :
  findWingStep (u, l, st) line = Ok (u1, l1, s1) ->
  idUpper s1 = default (idUpper st) (wingId "WINGUPPER" line) /\
  idLower s1 = default (idLower st) (wingId "WINGLOWER" line).
Proof.
  unfold findWingStep, wingId.
  destruct (py_in "WINGUPPER" line), (py_in "WINGLOWER" line),
           (field line 0 ≫= int_of_string) as [n| |];
    cbn [mbind res_bind]; intros H; try discriminate;
    injection H as <- <- <-; split; reflexivity.
Qed.

Lemma last_omap_cons {A B} (f : A -> option B) x l d :
  default d (last (omap f (x :: l))) = default (default d (f x)) (last (omap f l)).
Proof.
  cbn [omap list_omap]. destruct (f x) as [y|]; [ | reflexivity ].
  rewrite last_cons. destruct (last (omap f l)); reflexivity.
Qed.

Lemma findWingLoop_ids lines u l st u' l' st' :
  forM findWingStep lines (u, l, st) = Ok (u', l', st') ->
  idUpper st' = default (idUpper st) (last (omap (wingId "WINGUPPER") lines)) /\
  idLower st' = default (idLower st) (last (omap (wingId "WINGLOWER") lines)).
Proof.
  revert u l st u' l' st'.
  induction lines as [|line rest IH]; intros u l st u' l' st' H.
  - injection H as <- <- <-. auto.
  - cbn [forM] in H. apply bind_Ok in H. destruct H as ([[u1 l1] s1] & H1 & H).
    apply IH in H. destruct H as [-> ->].
    apply findWingStep_ids in H1. destruct H1 as [-> ->].
    rewrite !last_omap_cons. auto.
Qed.

(** X18. When [FindWing] returns, [GetWingBoundaryIds] gives the upper id
    first and the lower id second, each the integer in the first field of
    the last line of the log that holds [WINGUPPER], respectively
    [WINGLOWER]; with no such line the id is the one the object had. *)
Theorem FindWing_then_ids fs st found st' :
  FindWing fs st = Ok (found, st') ->
  exists lines,
    readlines fs (logFileName st) = Ok lines /\
    GetWingBoundaryIds st' =
      [ default (idUpper st) (last (omap (wingId "WINGUPPER") lines));
        default (idLower st) (last (omap (wingId "WINGLOWER") lines)) ].
Proof.
  unfold FindWing. intros H.
  apply bind_Ok in H. destruct H as (lines & Hl & H).
  apply bind_Ok in H. destruct H as ([[u l] s] & Hloop & H).
  exists lines. split; [ exact Hl | ].
  apply findWingLoop_ids in Hloop. destruct Hloop as [Hu Hd].
  assert (E : s = st').
  { destruct u; [ destruct l as [b|]; [ | discriminate H ] | ];
      injection H as _ <-; reflexivity. }
  subst s. unfold GetWingBoundaryIds. rewrite Hu, Hd. reflexivity.
Qed.
End WingIds.

(** ** The geometry values *)

Section GeomValues.
Context {PF : PyFloat}.

Lemma scanGeomLine_values st line st' :
  scanGeomLine st line = Ok st' ->
  alpha st' = default (alpha st) (geomValue "alpha" line) /\
  refArea st' = default (refArea st) (geomValue "axref" line) /\
  refLength st' = default (refLength st) (geomValue "lxref" line).
Proof.
  unfold scanGeomLine, geomValue. intros H.
  apply bind_Ok in H. destruct H as (s1 & H1 & H).
  apply bind_Ok in H. destruct H as (s2 & H2 & H).
  apply bind_Ok in H. destruct H as (s3 & H3 & H).
  assert (K : alpha st' = alpha s3 /\ refArea st' = refArea s3 /\ refLength st' = refLength s3).
  { res_inv.
    repeat match goal with
    | H : when (py_in _ _) _ ?s = Ok ?s' |- _ =>
      apply (when_rel (fun x y => alpha y = alpha x /\ refArea y = refArea x /\
                                  refLength y = refLength x)
                      _ _ _ _ (conj eq_refl (conj eq_refl eq_refl))) in H;
      [ | let Hb := fresh "Hb" in intros Hb; res_inv; subst;
          try (unfold setPlane; destruct (String.eqb _ "xy")); repeat split; reflexivity ]
    end.
    repeat match goal with H : _ /\ _ |- _ => destruct H end.
    repeat split; congruence. }
  destruct K as (-> & -> & ->). unfold when in H1, H2, H3.
  destruct (py_in "alpha" line), (py_in "axref" line), (py_in "lxref" line),
           (field line 1 ≫= float_of_string) as [v| |];
    cbn [mbind res_bind] in H1, H2, H3; try discriminate;
    injection H1 as <-; injection H2 as <-; injection H3 as <-; auto.
Qed.

Lemma scanGeomLines_values lines st st' :
  forM scanGeomLine lines st = Ok st' ->
  alpha st' = default (alpha st) (last (omap (geomValue "alpha") lines)) /\
  refArea st' = default (refArea st) (last (omap (geomValue "axref") lines)) /\
  refLength st' = default (refLength st) (last (omap (geomValue "lxref") lines)).
Proof.
  revert st. induction lines as [|line rest IH]; intros st H.
  - injection H as <-. auto.
  - cbn [forM] in H. res_inv. apply scanGeomLine_values in Ha.
    destruct Ha as (Ha & Hr & Hl). apply IH in H. destruct H as (-> & -> & ->).
    rewrite !last_omap_cons, Ha, Hr, Hl. auto.
Qed.

(** X19. When the geometry reader returns, the angle of attack is the
    float in the second field of the last line of the geometry file that
    holds [alpha] anywhere in it, the reference area likewise for [axref]
    and the reference length for [lxref]; without such a line the value
    is the one the object had (0.0 for a new object). *)
Theorem ReadRefGeomVals_last_wins fs st st' :
  ReadRefGeomVals fs st = Ok st' ->
  exists lines,
    geomLines fs st = Ok lines /\
    alpha st' = default (alpha st) (last (omap (geomValue "alpha") lines)) /\
    refArea st' = default (refArea st) (last (omap (geomValue "axref") lines)) /\
    refLength st' = default (refLength st) (last (omap (geomValue "lxref") lines)).
Proof.
  unfold ReadRefGeomVals. intros H. apply try_exit_Ok in H.
  apply bind_Ok in H. destruct H as (lines & Hl & H).
  exists lines. split; [ exact Hl | ]. apply scanGeomLines_values. exact H.
Qed.

Lemma py_index_1_len {A} (l : list A) x : py_index l 1 = Ok x -> 2 <= len l.
Proof.
  unfold py_index. change (1 <? 0) with false. cbn iota. change (1 <? 0) with false.
  cbn iota. destruct (nth_error l (Z.to_nat 1)) eqn:E; [ | discriminate ].
  intros _. assert (N : nth_error l (Z.to_nat 1) <> None) by congruence.
  apply nth_error_Some in N. unfold len. lia.
Qed.

Lemma scanGeomLine_needs_value st line st' key :
  scanGeomLine st line = Ok st' ->
  In key geomKeys -> py_in key line = true -> 2 <= len (py_split line).
Proof.
  intros H Hin Hk.
  destruct (field line 1) as [tok| |] eqn:E;
    [ apply (py_index_1_len _ _ E) | exfalso.. ];
    unfold scanGeomLine, when in H; rewrite E in H;
    unfold geomKeys in Hin; cbn [In] in Hin;
    repeat match type of H with
    | context [py_in ?k line] => destruct (py_in k line) eqn:?
    end;
    cbn [mbind res_bind] in H; try discriminate H;
    repeat destruct Hin as [<-|Hin]; try congruence; contradiction.
Qed.

Lemma forM_scanGeomLine_needs_value lines st st' line key :
  forM scanGeomLine lines st = Ok st' ->
  In line lines -> In key geomKeys -> py_in key line = true -> 2 <= len (py_split line).
Proof.
  revert st. induction lines as [|l rest IH]; intros st H Hin; [ destruct Hin | ].
  cbn [forM] in H. res_inv. destruct Hin as [->|Hin].
  - eauto using scanGeomLine_needs_value.
  - eauto.
Qed.

(** X20. The geometry reader returns only if every line of the geometry
    file that holds one of its seven keys ([alpha], [axref], [lxref],
    [xcen], [ycen], [zcen], [plane]) anywhere in it has at least two
    fields: a line with the key and no value stops the interpreter. *)
Theorem ReadRefGeomVals_needs_values fs st st' :
  ReadRefGeomVals fs st = Ok st' ->
  exists lines,
    geomLines fs st = Ok lines /\
    forall line key,
      In line lines -> In key geomKeys -> py_in key line = true ->
      2 <= len (py_split line).
Proof.
  unfold ReadRefGeomVals. intros H. apply try_exit_Ok in H.
  apply bind_Ok in H. destruct H as (lines & Hl & H).
  exists lines. split; [ exact Hl | ].
  intros line key. eapply forM_scanGeomLine_needs_value. exact H.
Qed.
End GeomValues.

(** ** The further properties on the sample case *)

Lemma returned_Ok_pair {A B} (d : A * B) (r : res (A * B)) :
  is_Ok r = true -> r = Ok (fst (returned d r), snd (returned d r)).
Proof. destruct r as [[a b]| |]; simpl; intros H; [ reflexivity | discriminate.. ]. Qed.

Section ExtraRuns.
Import Sample.
Local Abbreviation start := (@initial binary64 "sample").

Lemma ref_repeats_run : ReadRefVals fs_repeats start = Ok ref_repeats.
Proof. apply returned_Ok. vm_refl. Qed.

Lemma bc_repeats_run : ReadBcInfos fs_repeats start = Ok bc_repeats.
Proof. apply returned_Ok. vm_refl. Qed.

Lemma geom_once_run : ReadRefGeomVals fs start = Ok geom_once.
Proof. apply returned_Ok. vm_refl. Qed.

Lemma wing_upper_scan_run :
  forM findWingStep log_wing_upper (false, None, start) = Ok wing_upper_scan.
Proof. apply returned_Ok. vm_refl. Qed.

Lemma wing_found_run : FindWing fs_wing start = Ok (fst wing_found, snd wing_found).
Proof. apply returned_Ok_pair. vm_refl. Qed.

Lemma contour_run :
  WriteMcrOutputContour (fun s : string => s) 2 [1; 2] 9 [] "+Y view" "cp.jpg" = Ok contour.
Proof. apply returned_Ok. vm_refl. Qed.

Lemma Validate_spec_witness :
  fst (Validate fs_no_report "sample" "sample/sample.log" "sample/mcfd.info1"
                "sample/infout1f.inp" "sample/infout1f.out") = false /\
  snd (Validate fs_no_report "sample" "sample/sample.log" "sample/mcfd.info1"
                "sample/infout1f.inp" "sample/infout1f.out")
    = ["File not Found:sample/mcfd.info1"].
Proof.
  split; [ vm_refl | ].
  exact (proj2 (proj2 (proj2 (Validate_spec fs_no_report "sample" "sample/sample.log"
           "sample/mcfd.info1" "sample/infout1f.inp" "sample/infout1f.out")))
           eq_refl eq_refl).
Defined.

Lemma Process_missing_log_witness :
  snd (CFDppParser fs_dir_only "sample") = Ok start /\
  Process fs_dir_only start = Exit1 (FileNotFoundError "sample/sample.log").
Proof. exact (Process_missing_log fs_dir_only "sample" eq_refl). Defined.

Lemma ReadRefGeomVals_one_file_witness :
  fst (Validate fs_out_only "sample" (logFileName start) (info1FileName start)
                (infinFileName start) (infoutFileName start)) = true /\
  geomLines fs_out_only start = readlines fs_out_only "sample/infout1f.inp" /\
  ReadRefGeomVals fs_out_only start = Exit1 (FileNotFoundError "sample/infout1f.inp").
Proof.
  assert (Hl : readlines fs_out_only (logFileName start) = Ok log) by vm_refl.
  split; [ vm_refl | ].
  exact (conj (proj1 (ReadRefGeomVals_one_file fs_out_only start log Hl))
              (proj2 (ReadRefGeomVals_one_file fs_out_only start log Hl) eq_refl)).
Defined.

Lemma Process_keeps_witness :
  (caseName once, logFileName once, info1FileName once, infinFileName once,
   infoutFileName once)
    = (caseName start, logFileName start, info1FileName start, infinFileName start,
       infoutFileName start) /\
  symmPlane once = symmPlane start /\
  div_moment once = div_moment start /\ xCenterOfPressure once = xCenterOfPressure start /\
  idUpper once = idUpper start /\ idLower once = idLower start.
Proof. exact (Process_keeps fs start once once_run). Defined.

Lemma FindWing_outcomes_witness : FindWing fs_wing_upper start = Raise UnboundLocalError.
Proof.
  assert (Hl : readlines fs_wing_upper (logFileName start) = Ok log_wing_upper) by vm_refl.
  exact (FindWing_outcomes fs_wing_upper start log_wing_upper wing_upper_scan
           Hl wing_upper_scan_run).
Defined.

Lemma ReadRefVals_last_wins_witness :
  exists lines,
    readlines fs_repeats (logFileName start) = Ok lines /\
    refPres ref_repeats = default (refPres start) (last (omap (refValue "aero_pres") lines)) /\
    refTemp ref_repeats = default (refTemp start) (last (omap (refValue "aero_temp") lines)).
Proof. exact (ReadRefVals_last_wins fs_repeats start ref_repeats ref_repeats_run). Defined.

Lemma ReadBcInfos_first_count_witness :
  exists lines,
    readlines fs_repeats (logFileName start) = Ok lines /\
    match List.find (keyed3 "mbcons") lines with
    | Some line => field line 2 ≫= int_of_string = Ok (numBounds bc_repeats)
    | None => numBounds bc_repeats = numBounds start
    end.
Proof. exact (ReadBcInfos_first_count fs_repeats start bc_repeats bc_repeats_run). Defined.

Lemma ReadBcInfos_walls_by_position_witness :
  exists lines walls,
    readlines fs_repeats (logFileName start) = Ok lines /\
    wallsFrom lines lines 0 = Ok walls /\
    noSlipWalls bc_repeats = (noSlipWalls start ++ walls)%list.
Proof.
  exact (ReadBcInfos_walls_by_position fs_repeats start bc_repeats bc_repeats_run).
Defined.

Lemma no_temperature_never_returns_witness :
  exists e, ReadRefVals (files log_no_temp info1 inp) start = Exit1 e /\
            Process (files log_no_temp info1 inp) start = Exit1 e.
Proof.
  assert (Hl : readlines (files log_no_temp info1 inp) (logFileName start) = Ok log_no_temp)
    by vm_refl.
  assert (Hk : existsb (keyed3 "aero_temp") log_no_temp = false) by vm_refl.
  exact (proj1 (no_temperature_never_returns (PF := binary64) (fun x => eq_refl)
                  (files log_no_temp info1 inp) "sample" log_no_temp Hl Hk)).
Defined.

Lemma FindWing_then_ids_witness :
  exists lines,
    readlines fs_wing (logFileName start) = Ok lines /\
    GetWingBoundaryIds (snd wing_found) =
      [ default (idUpper start) (last (omap (wingId "WINGUPPER") lines));
        default (idLower start) (last (omap (wingId "WINGLOWER") lines)) ].
Proof.
  exact (FindWing_then_ids fs_wing start (fst wing_found) (snd wing_found) wing_found_run).
Defined.

Lemma ReadRefGeomVals_last_wins_witness :
  exists lines,
    geomLines fs start = Ok lines /\
    alpha geom_once = default (alpha start) (last (omap (geomValue "alpha") lines)) /\
    refArea geom_once = default (refArea start) (last (omap (geomValue "axref") lines)) /\
    refLength geom_once = default (refLength start) (last (omap (geomValue "lxref") lines)).
Proof. exact (ReadRefGeomVals_last_wins fs start geom_once geom_once_run). Defined.

Lemma ReadRefGeomVals_needs_values_witness :
  exists lines,
    geomLines fs start = Ok lines /\
    forall line key,
      In line lines -> In key geomKeys -> py_in key line = true ->
      2 <= len (py_split line).
Proof. exact (ReadRefGeomVals_needs_values fs start geom_once geom_once_run). Defined.

Lemma WriteMcrOutputContour_unknown_view_witness :
  WriteMcrOutputContour (fun s : string => s) 2 [1; 2] 9 [] "top view" "cp.jpg"
  = WriteMcrOutputContour (fun s : string => s) 2 [1; 2] 9 [] "+Z view" "cp.jpg".
Proof.
  apply WriteMcrOutputContour_unknown_view.
  intros H. cbn [In] in H.
  repeat (destruct H as [H|H]; [ discriminate H | ]). exact H.
Defined.

Lemma WriteMcrOutputContour_line_ends_witness :
  exists before fieldmap after,
    contour = (before ++ fieldmap :: after)%list /\
    forallb ends_nl before = true /\
    String.prefix "$!FIELDMAP [" fieldmap = true /\ ends_nl fieldmap = false /\
    forallb ends_nl after = true /\ length after = 14%nat /\
    nth_error after 0 = Some ("## fit data to the view" ++ nl).
Proof.
  exact (WriteMcrOutputContour_line_ends (fun s : string => s) 2 [1; 2] 9 [] "+Y view"
           "cp.jpg" contour contour_run).
Defined.

Lemma getters_unassigned_witness :
  GetLDRatio (PM := libm) start = Raise IndexError /\
  GetCoeffMoment start = Raise IndexError /\
  GetCenterOfPressure start = Raise IndexError.
Proof. exact (getters_unassigned (PM := libm) start eq_refl). Defined.
End ExtraRuns.
